(** * A typed facade over OneDrive / SharePoint: model of [onedrive.py]

    The module talks to two collaborators it does not implement: the Graph
    transport client ([self._client]) and the local filesystem ([pathlib]).
    Every call to one of them is an operation of the signature [op] below;
    the methods of [OneDriveClient] are programs over that signature, and a
    handler, which stands for the remote service and the disk, runs them
    against a world.  What the module itself decides (the address strings,
    the request bodies, the tests on [None], the exceptions and their
    messages, the order of the calls) is in the programs. *)

From stdpp Require Import base option list strings gmap.
From Stdlib Require Import ZArith Ascii String DecimalString.

Local Open Scope string_scope.
Local Open Scope Z_scope.

(** ** Values of the host language *)

Definition bytes := list Byte.byte.

(** [datetime] values are only passed along; seconds since the epoch. *)
Definition datetime := Z.

(** The exceptions the module raises itself, and the ones that reach it from
    the transport ([ODataError], with the service's error code) and from the
    filesystem ([OSError], with its errno name). *)
Inductive exn :=
| ValueError (msg : string)
| FileNotFoundError (msg : string)
| RuntimeError (msg : string)
| ODataError (code : string)
| OSError (errno : string).

Inductive result (A : Type) :=
| Ok (a : A)
| Raise (e : exn).
Arguments Ok {A} a.
Arguments Raise {A} e.

(** [x or d] on an optional string: [None] and the empty string are falsy. *)
Definition str_or (x : option string) (d : string) : string :=
  match x with
  | Some s => if String.eqb s "" then d else s
  | None => d
  end.

(** [x or d] on an optional list: [None] and the empty list are falsy. *)
Definition list_or {A} (x : option (list A)) (d : list A) : list A :=
  match x with
  | Some (a :: l) => a :: l
  | _ => d
  end.

(** ** Domain model *)

Record DriveItemInfo := {
  id : string;
  name : string;
  size : option Z;
  mime_type : option string;
  is_folder : bool;
  created_at : option datetime;
  modified_at : option datetime;
  web_url : option string;
  download_url : option string;
}.

Definition is_file (self : DriveItemInfo) : bool := negb (is_folder self).

Record FolderInfo := {
  folder_id : string;
  folder_name : string;
  children : list DriveItemInfo;
  folder_web_url : option string;
}.

Record SiteInfo := {
  site_info_id : string;
  site_info_name : string;
  display_name : string;
  site_info_web_url : option string;
}.

(** ** Records of the Graph SDK, as far as the module reads or writes them

    Every attribute of an SDK model is optional.  [additional_data] is the
    dictionary of the keys the SDK has no attribute for; the module stores
    and reads strings there.  The attributes [id], [name], [size] and
    [web_url] of a [DriveItem] are [item_id], [item_name], [item_size] and
    [item_web_url] here, the plain names being the fields of
    [DriveItemInfo]; likewise for [Site], [Drive] and [User]. *)

Record File := { file_mime_type : option string }.

Record Folder := { child_count : option Z }.

Record DriveItem := {
  item_id : option string;
  item_name : option string;
  item_size : option Z;
  file : option File;
  folder : option Folder;
  created_date_time : option datetime;
  last_modified_date_time : option datetime;
  item_web_url : option string;
  additional_data : gmap string string;
}.

Record DriveItemCollectionResponse := { value : option (list DriveItem) }.

Record Drive := { drive_id : option string }.

Record Site := {
  site_id : option string;
  site_name : option string;
  site_display_name : option string;
  site_web_url : option string;
}.

Record SiteCollectionResponse := { sites_value : option (list Site) }.

Record User := { user_display_name : option string }.

(** [Folder()] and [DriveItem(name=..., folder=..., additional_data=...)]:
    the attributes not given stay [None]. *)
Definition Folder_new : Folder := {| child_count := None |}.

Definition DriveItem_new (name : string) (folder : Folder)
    (additional_data : gmap string string) : DriveItem :=
  {| item_id := None; item_name := Some name; item_size := None;
     file := None; folder := Some folder;
     created_date_time := None; last_modified_date_time := None;
     item_web_url := None; additional_data := additional_data |}.

(** ** Response normalizer *)

Definition _to_drive_item_info (item : DriveItem) : DriveItemInfo :=
  {| id := str_or (item_id item) "";
     name := str_or (item_name item) "";
     size := item_size item;
     mime_type := match file item with
                  | Some f => file_mime_type f
                  | None => None
                  end;
     is_folder := match folder item with Some _ => true | None => false end;
     created_at := created_date_time item;
     modified_at := last_modified_date_time item;
     web_url := item_web_url item;
     download_url := additional_data item !! "@microsoft.graph.downloadUrl" |}.

(** ** Local paths

    A [Path] as [pathlib] holds it: whether it starts at the root, and its
    components.  Parsing a string drops empty components and single dots and
    keeps [..]; joining with an absolute path yields that path. *)

Record Path := { anchored : bool; parts : list string }.

Fixpoint split_slash (acc : string) (s : string) : list string :=
  match s with
  | EmptyString => [String.rev acc]
  | String c s' =>
      if Ascii.eqb c "/"%char then String.rev acc :: split_slash "" s'
      else split_slash (String c acc) s'
  end.

Definition keep_part (c : string) : bool :=
  negb (String.eqb c "") && negb (String.eqb c ".").

Definition Path_of_str (s : string) : Path :=
  {| anchored := match s with
                 | String c _ => Ascii.eqb c "/"%char
                 | EmptyString => false
                 end;
     parts := List.filter keep_part (split_slash "" s) |}.

(** [self / other] *)
Definition truediv (self : Path) (other : string) : Path :=
  let o := Path_of_str other in
  if anchored o then o
  else {| anchored := anchored self; parts := parts self ++ parts o |}.

(** [self.parent]: the root and the empty path are their own parents. *)
Definition parent (self : Path) : Path :=
  {| anchored := anchored self; parts := removelast (parts self) |}.

Definition Path_new (destination : string + Path) : Path :=
  match destination with
  | inl s => Path_of_str s
  | inr p => p
  end.

(** ** The collaborators' operations *)

Inductive Credential := credential (oid : nat).

Record GraphServiceClient := {
  credentials : Credential;
  scopes : list string;
}.

Inductive log_arg :=
| log_str (s : string)
| log_path (p : Path).

(** One constructor per call that leaves the module; the index is the type
    of what the call returns.  The Graph calls are named after the request
    builder chain and its verb: [items_content_put c d i b] is
    [c.drives.by_drive_id(d).items.by_drive_item_id(i).content.put(b)]. *)
Inductive op : Type -> Type :=
| me_get (c : GraphServiceClient) : op (option User)
| me_drive_get (c : GraphServiceClient) : op (option Drive)
| me_followed_sites_get (c : GraphServiceClient) : op (option SiteCollectionResponse)
| sites_get (c : GraphServiceClient) (site : string) : op (option Site)
| sites_drive_get (c : GraphServiceClient) (site : string) : op (option Drive)
| items_get (c : GraphServiceClient) (drive item : string) : op (option DriveItem)
| items_children_get (c : GraphServiceClient) (drive item : string) :
    op (option DriveItemCollectionResponse)
| items_children_post (c : GraphServiceClient) (drive item : string)
    (body : DriveItem) : op (option DriveItem)
| items_content_get (c : GraphServiceClient) (drive item : string) :
    op (option bytes)
| items_content_put (c : GraphServiceClient) (drive item : string)
    (body : bytes) : op (option DriveItem)
| items_delete (c : GraphServiceClient) (drive item : string) : op unit
| is_dir (p : Path) : op bool
| mkdir (p : Path) (parents exist_ok : bool) : op unit
| write_bytes (p : Path) (data : bytes) : op Z
| logger_info (fmt : string) (args : list log_arg) : op unit
| DefaultAzureCredential_new : op Credential.

(** ** Programs: a call and its continuation, a result, or an exception *)

Inductive prog (A : Type) : Type :=
| Return (a : A)
| Throw (e : exn)
| Call {X : Type} (o : op X) (k : X -> prog A).
Arguments Return {A} a.
Arguments Throw {A} e.
Arguments Call {A X} o k.

Fixpoint prog_bind {A B} (f : A -> prog B) (m : prog A) : prog B :=
  match m with
  | Return a => f a
  | Throw e => Throw e
  | Call o k => Call o (fun x => prog_bind f (k x))
  end.

#[export] Instance prog_mret : MRet prog := @Return.
#[export] Instance prog_mbind : MBind prog := @prog_bind.

(** [await o] *)
Definition await {X} (o : op X) : prog X := Call o Return.

(** A handler answers every operation in a world and may raise there. *)
Definition handler (W : Type) := forall X, op X -> W -> result X * W.

Fixpoint run {W A} (h : handler W) (m : prog A) (w : W) : result A * W :=
  match m with
  | Return a => (Ok a, w)
  | Throw e => (Raise e, w)
  | Call o k =>
      match h _ o w with
      | (Ok x, w') => run h (k x) w'
      | (Raise e, w') => (Raise e, w')
      end
  end.

(** The operations a program issues before it stops, in order, under the
    same handler. *)
Inductive some_op := an_op (X : Type) (o : op X).
Arguments an_op {X} o.

Fixpoint trace {W A} (h : handler W) (m : prog A) (w : W) : list some_op :=
  match m with
  | Return _ | Throw _ => []
  | Call o k =>
      an_op o ::
      match h _ o w with
      | (Ok x, w') => trace h (k x) w'
      | (Raise _, _) => []
      end
  end.

(** ** OneDriveClient *)

Definition _DEFAULT_SCOPES : list string :=
  ["https://graph.microsoft.com/.default"].

Record OneDriveClient := { _client : GraphServiceClient }.

Definition OneDriveClient_init (credential : option Credential)
    (scopes : option (list string))
    (graph_client : option GraphServiceClient) : result OneDriveClient :=
  match graph_client with
  | Some g => Ok {| _client := g |}
  | None =>
      match credential with
      | Some c =>
          Ok {| _client := {| credentials := c;
                              scopes := list_or scopes _DEFAULT_SCOPES |} |}
      | None =>
          Raise (ValueError
                   "Either 'credential' or 'graph_client' must be provided.")
      end
  end.

Definition get_user_display_name (self : OneDriveClient) : prog string :=
  user ← await (me_get (_client self));
  match user with
  | None => Return "User"
  | Some u =>
      match user_display_name u with
      | None => Return "User"
      | Some n => Return n
      end
  end.

Definition get_my_drive_id (self : OneDriveClient) : prog string :=
  drive ← await (me_drive_get (_client self));
  match drive with
  | None =>
      Throw (FileNotFoundError
               "Could not resolve the current user's OneDrive drive ID.")
  | Some d =>
      match drive_id d with
      | None =>
          Throw (FileNotFoundError
                   "Could not resolve the current user's OneDrive drive ID.")
      | Some i => Return i
      end
  end.

Definition to_site_info (site : Site) : SiteInfo :=
  {| site_info_id := str_or (site_id site) "";
     site_info_name := str_or (site_name site) "";
     display_name :=
       str_or (site_display_name site) (str_or (site_name site) "");
     site_info_web_url := site_web_url site |}.

Definition list_followed_sites (self : OneDriveClient) : prog (list SiteInfo) :=
  result ← await (me_followed_sites_get (_client self));
  match result with
  | None => Return []
  | Some r =>
      match sites_value r with
      | None => Return []
      | Some v => Return (to_site_info <$> v)
      end
  end.

Definition get_site_default_drive_id (self : OneDriveClient)
    (site_id : string) : prog string :=
  drive ← await (sites_drive_get (_client self) site_id);
  match drive with
  | None =>
      Throw (FileNotFoundError ("Default drive not found for site " ++ site_id))
  | Some d =>
      match drive_id d with
      | None =>
          Throw (FileNotFoundError
                   ("Default drive not found for site " ++ site_id))
      | Some i => Return i
      end
  end.

Definition get_site_drive_id (self : OneDriveClient)
    (hostname site_path : string) : prog string :=
  site ← await (sites_get (_client self) (hostname ++ ":" ++ site_path));
  match site with
  | None =>
      Throw (FileNotFoundError
               ("Site not found: " ++ hostname ++ ":" ++ site_path))
  | Some s =>
      drive ← await (sites_drive_get (_client self) (str_or (site_id s) ""));
      match drive with
      | None =>
          Throw (FileNotFoundError
                   ("Default drive not found for site " ++ hostname ++ ":"
                      ++ site_path))
      | Some d => Return (str_or (drive_id d) "")
      end
  end.

Definition list_items (self : OneDriveClient) (drive_id folder_id : string) :
    prog (list DriveItemInfo) :=
  result ← await (items_children_get (_client self) drive_id folder_id);
  match result with
  | None => Return []
  | Some r =>
      match value r with
      | None => Return []
      | Some v => Return (_to_drive_item_info <$> v)
      end
  end.

Definition list_items_by_path (self : OneDriveClient) (drive_id path : string) :
    prog (list DriveItemInfo) :=
  folder_item ← await (items_get (_client self) drive_id
                         ("root:/" ++ path ++ ":"));
  match folder_item with
  | None => Throw (FileNotFoundError ("Folder not found at path: " ++ path))
  | Some f => list_items self drive_id (str_or (item_id f) "root")
  end.

Definition get_item (self : OneDriveClient) (drive_id item_id : string) :
    prog DriveItemInfo :=
  item ← await (items_get (_client self) drive_id item_id);
  match item with
  | None => Throw (FileNotFoundError ("Item not found: " ++ item_id))
  | Some i => Return (_to_drive_item_info i)
  end.

Definition download_file (self : OneDriveClient) (drive_id item_id : string)
    (destination : string + Path) : prog Path :=
  let destination := Path_new destination in
  d ← await (is_dir destination);
  destination ← (if d : bool then
                   meta ← get_item self drive_id item_id;
                   Return (truediv destination (name meta))
                 else Return destination);
  content ← await (items_content_get (_client self) drive_id item_id);
  match content with
  | None =>
      Throw (FileNotFoundError ("No content returned for item " ++ item_id))
  | Some content =>
      _ ← await (mkdir (parent destination) true true);
      _ ← await (write_bytes destination content);
      _ ← await (logger_info "Downloaded %s to %s"
                   [log_str item_id; log_path destination]);
      Return destination
  end.

Definition upload_file (self : OneDriveClient)
    (drive_id parent_folder_id filename : string) (content : bytes) :
    prog DriveItemInfo :=
  result ← await (items_content_put (_client self) drive_id
                    (parent_folder_id ++ ":/" ++ filename ++ ":") content);
  match result with
  | None =>
      Throw (RuntimeError ("Upload returned no metadata for " ++ filename))
  | Some r => Return (_to_drive_item_info r)
  end.

Definition upload_file_by_path (self : OneDriveClient)
    (drive_id remote_path : string) (content : bytes) : prog DriveItemInfo :=
  result ← await (items_content_put (_client self) drive_id
                    ("root:/" ++ remote_path ++ ":") content);
  match result with
  | None =>
      Throw (RuntimeError ("Upload returned no metadata for " ++ remote_path))
  | Some r => Return (_to_drive_item_info r)
  end.

Definition create_folder (self : OneDriveClient)
    (drive_id parent_folder_id folder_name : string) : prog DriveItemInfo :=
  let new_folder :=
    DriveItem_new folder_name Folder_new
      {[ "@microsoft.graph.conflictBehavior" := "rename" ]} in
  result ← await (items_children_post (_client self) drive_id
                    parent_folder_id new_folder);
  match result with
  | None =>
      Throw (RuntimeError
               ("Folder creation returned no metadata for " ++ folder_name))
  | Some r => Return (_to_drive_item_info r)
  end.

Definition delete_item (self : OneDriveClient) (drive_id item_id : string) :
    prog unit :=
  _ ← await (items_delete (_client self) drive_id item_id);
  await (logger_info "Deleted item %s from drive %s"
           [log_str item_id; log_str drive_id]).

Definition get_folder_info (self : OneDriveClient)
    (drive_id folder_id : string) : prog FolderInfo :=
  folder_meta ← get_item self drive_id folder_id;
  children ← list_items self drive_id folder_id;
  Return {| folder_id := id folder_meta;
            folder_name := name folder_meta;
            children := children;
            folder_web_url := web_url folder_meta |}.

(** ** The client factory

    [@lru_cache] on a function without arguments is one slot.  The slot and
    the facade instances constructed so far are the state of the process; an
    instance is known by its position among them, so that two calls return
    the identical object exactly when they return the same position.  A call
    that raises leaves the slot empty. *)

Record Process := {
  instances : list OneDriveClient;
  cache : option nat;
}.

Definition get_onedrive_client (p : Process) : prog (nat * Process) :=
  match cache p with
  | Some r => Return (r, p)
  | None =>
      credential ← await DefaultAzureCredential_new;
      match OneDriveClient_init (Some credential) None None with
      | Raise e => Throw e
      | Ok c =>
          let r := List.length (instances p) in
          Return (r, {| instances := instances p ++ [c]; cache := Some r |})
      end
  end.

(** ** A reference handler: an in-memory drive service and disk

    The facade is proved against every handler.  This one is an executable
    stand-in for the collaborators, used to run the facade on concrete
    inputs: a store of drive items addressed by identifier or by
    [<parent>:/<relative path>:], a table of sites, a disk, and a counter for
    fresh objects.  Its conflict behaviour for uploads is a parameter, since
    an upload request carries none; for [children.post] it follows the
    annotation in the request body and rejects when there is none.  Where an
    addressed item does not exist it answers [None]. *)

Inductive ConflictBehavior := Rename | Replace | Fail.

Record Node := {
  n_drive : string;
  n_parent : string;
  n_item : DriveItem;
  n_data : bytes;
}.

Inductive fnode := Dir | Reg (data : bytes).

Record World := {
  nodes : list Node;
  next_id : nat;
  me : option User;
  me_drive : option Drive;
  followed : option SiteCollectionResponse;
  sites : gmap string Site;
  site_drives : gmap string Drive;
  fs : gmap (bool * list string) fnode;
  log : list (string * list log_arg);
  credential_error : option exn;
}.

Definition with_nodes (w : World) (ns : list Node) (k : nat) : World :=
  {| nodes := ns; next_id := k; me := me w; me_drive := me_drive w;
     followed := followed w; sites := sites w; site_drives := site_drives w;
     fs := fs w; log := log w; credential_error := credential_error w |}.

Definition with_fs (w : World) (f : gmap (bool * list string) fnode) : World :=
  {| nodes := nodes w; next_id := next_id w; me := me w;
     me_drive := me_drive w; followed := followed w; sites := sites w;
     site_drives := site_drives w; fs := f; log := log w;
     credential_error := credential_error w |}.

Definition with_log (w : World) (l : list (string * list log_arg)) : World :=
  {| nodes := nodes w; next_id := next_id w; me := me w;
     me_drive := me_drive w; followed := followed w; sites := sites w;
     site_drives := site_drives w; fs := fs w; log := l;
     credential_error := credential_error w |}.

Definition string_of_nat (n : nat) : string :=
  DecimalString.NilZero.string_of_uint (Nat.to_uint n).

Definition opt_eqb (x : option string) (s : string) : bool :=
  match x with Some y => String.eqb y s | None => false end.

(** *** Addresses *)

Fixpoint split_marker (acc s : string) : option (string * string) :=
  match s with
  | EmptyString => None
  | String c s' =>
      match s' with
      | String c' rest =>
          if Ascii.eqb c ":"%char && Ascii.eqb c' "/"%char
          then Some (String.rev acc, rest)
          else split_marker (String c acc) s'
      | EmptyString => None
      end
  end.

Definition strip_colon (s : string) : option string :=
  match String.rev s with
  | String c r => if Ascii.eqb c ":"%char then Some (String.rev r) else None
  | EmptyString => None
  end.

(** [Some (parent, components)] for [<parent>:/<relative path>:]. *)
Definition parse_address (a : string) : option (string * list string) :=
  match split_marker "" a with
  | Some (p, rest) =>
      match strip_colon rest with
      | Some rel => Some (p, List.filter keep_part (split_slash "" rel))
      | None => None
      end
  | None => None
  end.

Definition root_item : DriveItem :=
  {| item_id := Some "root"; item_name := Some "root"; item_size := None;
     file := None; folder := Some Folder_new;
     created_date_time := None; last_modified_date_time := None;
     item_web_url := None; additional_data := ∅ |}.

Definition by_id (ns : list Node) (drive i : string) : option DriveItem :=
  if String.eqb i "root" then Some root_item
  else n_item <$> List.find (fun n => String.eqb (n_drive n) drive
                                      && opt_eqb (item_id (n_item n)) i) ns.

Definition child (ns : list Node) (drive dir nm : string) : option Node :=
  List.find (fun n => String.eqb (n_drive n) drive
                      && String.eqb (n_parent n) dir
                      && opt_eqb (item_name (n_item n)) nm) ns.

Fixpoint walk (ns : list Node) (drive dir : string) (comps : list string) :
    option DriveItem :=
  match comps with
  | [] => by_id ns drive dir
  | [c] => n_item <$> child ns drive dir c
  | c :: rest =>
      match child ns drive dir c with
      | Some n =>
          match item_id (n_item n) with
          | Some i => walk ns drive i rest
          | None => None
          end
      | None => None
      end
  end.

Definition resolve (ns : list Node) (drive a : string) : option DriveItem :=
  match parse_address a with
  | Some (p, comps) => walk ns drive p comps
  | None => by_id ns drive a
  end.

Definition children_of (ns : list Node) (drive dir : string) : list DriveItem :=
  n_item <$> List.filter (fun n => String.eqb (n_drive n) drive
                                   && String.eqb (n_parent n) dir) ns.

Definition data_of (ns : list Node) (drive : string) (it : DriveItem) :
    option bytes :=
  match file it, item_id it with
  | Some _, Some i =>
      n_data <$> List.find (fun n => String.eqb (n_drive n) drive
                                     && opt_eqb (item_id (n_item n)) i) ns
  | _, _ => None
  end.

(** *** Uploads and folder creation *)

Fixpoint cut_dot (acc r : string) : option (string * string) :=
  match r with
  | EmptyString => None
  | String c r' =>
      if Ascii.eqb c "."%char then Some (String.rev r', String c acc)
      else cut_dot (String c acc) r'
  end.

(** [nm] with [" k"] put before its extension. *)
Definition numbered (nm : string) (k : nat) : string :=
  match cut_dot "" (String.rev nm) with
  | Some (stem, ext) => stem ++ " " ++ string_of_nat k ++ ext
  | None => nm ++ " " ++ string_of_nat k
  end.

Fixpoint fresh_name (taken : list string) (nm : string) (k fuel : nat) :
    string :=
  match fuel with
  | O => numbered nm k
  | S fuel' =>
      if List.existsb (String.eqb (numbered nm k)) taken
      then fresh_name taken nm (S k) fuel'
      else numbered nm k
  end.

Definition names_in (ns : list Node) (drive dir : string) : list string :=
  omap item_name (children_of ns drive dir).

Definition file_item (i nm : string) (data : bytes) : DriveItem :=
  {| item_id := Some i; item_name := Some nm;
     item_size := Some (Z.of_nat (List.length data));
     file := Some {| file_mime_type := None |}; folder := None;
     created_date_time := None; last_modified_date_time := None;
     item_web_url := None; additional_data := ∅ |}.

Definition folder_item (i nm : string) : DriveItem :=
  {| item_id := Some i; item_name := Some nm; item_size := None;
     file := None; folder := Some Folder_new;
     created_date_time := None; last_modified_date_time := None;
     item_web_url := None; additional_data := ∅ |}.

Definition add_node (w : World) (drive dir : string) (it : DriveItem)
    (data : bytes) : World :=
  with_nodes w
    (nodes w ++ [{| n_drive := drive; n_parent := dir; n_item := it;
                    n_data := data |}])
    (S (next_id w)).

Definition overwrite (old : Node) (data : bytes) : Node :=
  {| n_drive := n_drive old; n_parent := n_parent old;
     n_item := file_item (str_or (item_id (n_item old)) "")
                 (str_or (item_name (n_item old)) "") data;
     n_data := data |}.

Definition same_slot (a b : Node) : bool :=
  String.eqb (n_drive a) (n_drive b) && String.eqb (n_parent a) (n_parent b)
  && match item_name (n_item a), item_name (n_item b) with
     | Some x, Some y => String.eqb x y
     | _, _ => false
     end.

Definition fresh_id (w : World) : string := "item-" ++ string_of_nat (next_id w).

Definition put_in (pol : ConflictBehavior) (w : World) (drive dir nm : string)
    (body : bytes) : result (option DriveItem) * World :=
  match child (nodes w) drive dir nm with
  | None =>
      let it := file_item (fresh_id w) nm body in
      (Ok (Some it), add_node w drive dir it body)
  | Some old =>
      match pol with
      | Replace =>
          let new := overwrite old body in
          (Ok (Some (n_item new)),
           with_nodes w
             ((fun n => if same_slot n old then new else n) <$> nodes w)
             (next_id w))
      | Fail => (Raise (ODataError "nameAlreadyExists"), w)
      | Rename =>
          let taken := names_in (nodes w) drive dir in
          let it := file_item (fresh_id w)
                      (fresh_name taken nm 1 (List.length taken)) body in
          (Ok (Some it), add_node w drive dir it body)
      end
  end.

Definition svc_put (pol : ConflictBehavior) (w : World) (drive a : string)
    (body : bytes) : result (option DriveItem) * World :=
  match parse_address a with
  | Some (p, comps) =>
      match comps with
      | [] => (Raise (ODataError "invalidRequest"), w)
      | _ =>
          match walk (nodes w) drive p (removelast comps) with
          | Some d =>
              match item_id d with
              | Some dir => put_in pol w drive dir (List.last comps "") body
              | None => (Raise (ODataError "itemNotFound"), w)
              end
          | None => (Raise (ODataError "itemNotFound"), w)
          end
      end
  | None => (Raise (ODataError "invalidRequest"), w)
  end.

Definition requested_behavior (body : DriveItem) : ConflictBehavior :=
  match additional_data body !! "@microsoft.graph.conflictBehavior" with
  | Some b =>
      if String.eqb b "rename" then Rename
      else if String.eqb b "replace" then Replace
      else Fail
  | None => Fail
  end.

Definition svc_post (w : World) (drive a : string) (body : DriveItem) :
    result (option DriveItem) * World :=
  match resolve (nodes w) drive a with
  | Some d =>
      match item_id d with
      | Some dir =>
          let nm := str_or (item_name body) "" in
          match child (nodes w) drive dir nm with
          | None =>
              let it := folder_item (fresh_id w) nm in
              (Ok (Some it), add_node w drive dir it [])
          | Some old =>
              match requested_behavior body with
              | Rename =>
                  let taken := names_in (nodes w) drive dir in
                  let it := folder_item (fresh_id w)
                              (fresh_name taken nm 1 (List.length taken)) in
                  (Ok (Some it), add_node w drive dir it [])
              | Replace => (Ok (Some (n_item old)), w)
              | Fail => (Raise (ODataError "nameAlreadyExists"), w)
              end
          end
      | None => (Raise (ODataError "itemNotFound"), w)
      end
  | None => (Raise (ODataError "itemNotFound"), w)
  end.

Definition svc_delete (w : World) (drive a : string) : result unit * World :=
  match resolve (nodes w) drive a with
  | Some d =>
      (Ok (),
       with_nodes w
         (List.filter
            (fun n => negb (String.eqb (n_drive n) drive
                            && match item_id d with
                               | Some i => opt_eqb (item_id (n_item n)) i
                               | None => false
                               end))
            (nodes w))
         (next_id w))
  | None => (Raise (ODataError "itemNotFound"), w)
  end.

(** *** The disk *)

Definition key (p : Path) : bool * list string := (anchored p, parts p).

Definition fs_is_dir (f : gmap (bool * list string) fnode) (p : Path) : bool :=
  match parts p with
  | [] => true
  | _ => match f !! key p with Some Dir => true | _ => false end
  end.

(** Every missing directory from [pre] down along [rest]; [None] when a
    regular file is in the way. *)
Fixpoint mkdir_chain (f : gmap (bool * list string) fnode) (a : bool)
    (pre rest : list string) : option (gmap (bool * list string) fnode) :=
  match rest with
  | [] => Some f
  | c :: rest' =>
      match f !! (a, (pre ++ [c])%list) with
      | Some (Reg _) => None
      | Some Dir => mkdir_chain f a (pre ++ [c])%list rest'
      | None => mkdir_chain (<[(a, (pre ++ [c])%list) := Dir]> f) a (pre ++ [c])%list rest'
      end
  end.

Definition fs_mkdir (w : World) (p : Path) (parents exist_ok : bool) :
    result unit * World :=
  if fs_is_dir (fs w) p then
    if exist_ok then (Ok (), w) else (Raise (OSError "EEXIST"), w)
  else
    match fs w !! key p with
    | Some _ => (Raise (OSError "EEXIST"), w)
    | None =>
        if parents then
          match mkdir_chain (fs w) (anchored p) [] (parts p) with
          | Some f => (Ok (), with_fs w f)
          | None => (Raise (OSError "ENOTDIR"), w)
          end
        else if fs_is_dir (fs w) (parent p)
             then (Ok (), with_fs w (<[key p := Dir]> (fs w)))
             else (Raise (OSError "ENOENT"), w)
    end.

Definition fs_write_bytes (w : World) (p : Path) (data : bytes) :
    result Z * World :=
  if fs_is_dir (fs w) p then (Raise (OSError "EISDIR"), w)
  else if fs_is_dir (fs w) (parent p)
       then (Ok (Z.of_nat (List.length data)),
             with_fs w (<[key p := Reg data]> (fs w)))
       else (Raise (OSError "ENOENT"), w).

(** *** The handler *)

Definition graph_service (pol : ConflictBehavior) : handler World :=
  fun X (o : op X) (w : World) =>
    match o in op X return result X * World with
    | me_get _ => (Ok (me w), w)
    | me_drive_get _ => (Ok (me_drive w), w)
    | me_followed_sites_get _ => (Ok (followed w), w)
    | sites_get _ s => (Ok (sites w !! s), w)
    | sites_drive_get _ s => (Ok (site_drives w !! s), w)
    | items_get _ d i => (Ok (resolve (nodes w) d i), w)
    | items_children_get _ d i =>
        (Ok (match resolve (nodes w) d i with
             | Some it =>
                 match item_id it with
                 | Some f =>
                     Some {| value := Some (children_of (nodes w) d f) |}
                 | None => None
                 end
             | None => None
             end), w)
    | items_children_post _ d i body => svc_post w d i body
    | items_content_get _ d i =>
        (Ok (match resolve (nodes w) d i with
             | Some it => data_of (nodes w) d it
             | None => None
             end), w)
    | items_content_put _ d i body => svc_put pol w d i body
    | items_delete _ d i => svc_delete w d i
    | is_dir p => (Ok (fs_is_dir (fs w) p), w)
    | mkdir p parents exist_ok => fs_mkdir w p parents exist_ok
    | write_bytes p data => fs_write_bytes w p data
    | logger_info fmt args => (Ok (), with_log w (log w ++ [(fmt, args)]))
    | DefaultAzureCredential_new =>
        match credential_error w with
        | Some e => (Raise e, w)
        | None =>
            (Ok (credential (next_id w)),
             with_nodes w (nodes w) (S (next_id w)))
        end
    end.

(** *** Sample worlds *)

Definition b (s : string) : bytes := list_byte_of_string s.

Definition node (drive dir : string) (it : DriveItem) (data : bytes) : Node :=
  {| n_drive := drive; n_parent := dir; n_item := it; n_data := data |}.

(** A folder entry the service reports without an identifier. *)
Definition ghost_item : DriveItem :=
  {| item_id := None; item_name := Some "ghost"; item_size := None;
     file := None; folder := Some Folder_new;
     created_date_time := None; last_modified_date_time := None;
     item_web_url := None; additional_data := ∅ |}.

(** Drive [D1]: [Docs/2024/report.pdf], [a.txt] and [ghost] under the root;
    a site whose drive record has no identifier; a disk with [/tmp/out]. *)
Definition sample_world : World :=
  {| nodes := [ node "D1" "root" (folder_item "F1" "Docs") [];
                node "D1" "F1" (folder_item "F2" "2024") [];
                node "D1" "F2" (file_item "X" "report.pdf" (b "%PDF"))
                  (b "%PDF");
                node "D1" "root" (file_item "A" "a.txt" (b "old")) (b "old");
                node "D1" "root" ghost_item [] ];
     next_id := 0;
     me := None;
     me_drive := None;
     followed := None;
     sites :=
       {[ "contoso.sharepoint.com:/sites/my-team" :=
            {| site_id := Some "S1"; site_name := Some "my-team";
               site_display_name := None; site_web_url := None |} ]};
     site_drives := {[ "S1" := {| drive_id := None |} ]};
     fs := {[ (true, ["tmp"]) := Dir; (true, ["tmp"; "out"]) := Dir ]};
     log := [];
     credential_error := None |}.

Definition sample_client : OneDriveClient :=
  {| _client := {| credentials := credential 7;
                   scopes := _DEFAULT_SCOPES |} |}.

Definition fresh_process : Process := {| instances := []; cache := None |}.

(** Where [report.pdf] lands when downloaded into [/tmp/out], and the world
    after that download. *)
Definition report_path : Path :=
  {| anchored := true; parts := ["tmp"; "out"; "report.pdf"] |}.

Definition world_after_write : World :=
  with_fs sample_world (<[key report_path := Reg (b "%PDF")]> (fs sample_world)).

Definition world_after_download : World :=
  with_log world_after_write
    [("Downloaded %s to %s", [log_str "X"; log_path report_path])].

(** The process once the first call of the factory has built its instance
    from the credential numbered [0]. *)
Definition process_after_first_call : Process :=
  {| instances := [ {| _client := {| credentials := credential 0;
                                     scopes := _DEFAULT_SCOPES |} |} ];
     cache := Some 0%nat |}.

(** [n] calls of the factory, one after the other. *)
Fixpoint repeat_get_onedrive_client (n : nat) (p : Process) :
    prog (list nat * Process) :=
  match n with
  | O => Return ([], p)
  | S n' =>
      rp ← get_onedrive_client p;
      rest ← repeat_get_onedrive_client n' rp.2;
      Return (rp.1 :: rest.1, rest.2)
  end.

(** The one request that resolves [path] in [list_items_by_path]. *)
Definition resolve_request (self : OneDriveClient) (drive_id path : string) :
    op (option DriveItem) :=
  items_get (_client self) drive_id ("root:/" ++ path ++ ":").

(** ** Kinds of requests

    The requests that only read from the service: the [get] verbs. *)
Definition is_get (o : some_op) : bool :=
  match o with
  | an_op o' =>
      match o' with
      | me_get _ | me_drive_get _ | me_followed_sites_get _
      | sites_get _ _ | sites_drive_get _ _
      | items_get _ _ _ | items_children_get _ _ _
      | items_content_get _ _ _ => true
      | _ => false
      end
  end.

(** The requests that change the service: upload, creation, deletion. *)
Definition changes_service (o : some_op) : bool :=
  match o with
  | an_op o' =>
      match o' with
      | items_children_post _ _ _ _ | items_content_put _ _ _ _
      | items_delete _ _ _ => true
      | _ => false
      end
  end.

(** The operations on the local disk. *)
Definition is_disk (o : some_op) : bool :=
  match o with
  | an_op o' =>
      match o' with
      | is_dir _ | mkdir _ _ _ | write_bytes _ _ => true
      | _ => false
      end
  end.

(** ** Parts of [download_file]

    What [download_file] does once the target path is settled: fetch the
    content, create the parent, write, log, return the target. *)
Definition download_to (self : OneDriveClient) (drive_id item_id : string)
    (destination : Path) : prog Path :=
  content ← await (items_content_get (_client self) drive_id item_id);
  match content with
  | None =>
      Throw (FileNotFoundError ("No content returned for item " ++ item_id))
  | Some content =>
      _ ← await (mkdir (parent destination) true true);
      _ ← await (write_bytes destination content);
      _ ← await (logger_info "Downloaded %s to %s"
                   [log_str item_id; log_path destination]);
      Return destination
  end.

(** A name that is one path component: not empty, not a dot, no slash. *)
Definition is_plain_name (n : string) : bool :=
  keep_part n
  && forallb (fun c => negb (Ascii.eqb c "/"%char)) (list_ascii_of_string n).

(** ** Settings ([settings.py])

    [Settings()] reads the environment and the [.env] file and validates
    what it finds; that is the settings library's work, so the constructor is
    a parameter: a function of the environment that yields the two
    identifiers or raises.  [@lru_cache] on [get_settings], a function
    without arguments, is one slot, filled by the first call that returns. *)

Record Settings := {
  azure_tenant_id : string;
  azure_client_id : string;
}.

Section GetSettings.
Context {Env : Type} (Settings_init : Env -> result Settings).

Definition get_settings (env : Env) (slot : option Settings) :
    result Settings * option Settings :=
  match slot with
  | Some s => (Ok s, slot)
  | None =>
      match Settings_init env with
      | Ok s => (Ok s, Some s)
      | Raise e => (Raise e, None)
      end
  end.

End GetSettings.

(** A sample constructor, to run [get_settings]: both identifiers must be
    in the environment. *)
Definition sample_Settings_init (env : gmap string string) : result Settings :=
  match env !! "AZURE_TENANT_ID", env !! "AZURE_CLIENT_ID" with
  | Some t, Some c => Ok {| azure_tenant_id := t; azure_client_id := c |}
  | _, _ => Raise (ValueError "validation error for Settings")
  end.

Definition sample_env : gmap string string :=
  {[ "AZURE_TENANT_ID" := "tenant-1"; "AZURE_CLIENT_ID" := "client-1" ]}.

(** [sample_world] for a user who follows two sites, the second without a
    display name, and whose sign-in fails. *)
Definition followed_sites : list Site :=
  [ {| site_id := Some "S1"; site_name := Some "my-team";
       site_display_name := Some "My Team"; site_web_url := None |};
    {| site_id := Some "S2"; site_name := Some "archive";
       site_display_name := None; site_web_url := None |} ].

Definition sites_world : World :=
  {| nodes := nodes sample_world; next_id := next_id sample_world;
     me := Some {| user_display_name := Some "Ada" |};
     me_drive := Some {| drive_id := Some "D1" |};
     followed := Some {| sites_value := Some followed_sites |};
     sites := sites sample_world; site_drives := site_drives sample_world;
     fs := fs sample_world; log := [];
     credential_error := Some (ODataError "CredentialUnavailableError") |}.

(** [sample_world] with two more items in [D1]: one whose name is an
    absolute path and one without a name. *)
Definition unnamed_item : DriveItem :=
  {| item_id := Some "N"; item_name := None; item_size := Some 1;
     file := Some {| file_mime_type := None |}; folder := None;
     created_date_time := None; last_modified_date_time := None;
     item_web_url := None; additional_data := ∅ |}.

Definition odd_names_world : World :=
  with_nodes sample_world
    (nodes sample_world
       ++ [ node "D1" "root" (file_item "E" "/srv/elsewhere.txt" (b "x"))
              (b "x");
            node "D1" "root" unnamed_item (b "y") ])
    0.

(** * Properties *)

(** ** Running programs *)

Lemma run_bind {W A B} (h : handler W) (m : prog A) (f : A -> prog B) (w : W) :
  run h (m ≫= f) w =
  match run h m w with
  | (Ok a, w') => run h (f a) w'
  | (Raise e, w') => (Raise e, w')
  end.
Proof.
  revert w. induction m as [a|e|X o k IH]; intros w; cbn; try done.
  destruct (h X o w) as [[x|e] w']; [apply IH | done].
Qed.

Lemma trace_bind {W A B} (h : handler W) (m : prog A) (f : A -> prog B) (w : W) :
  trace h (m ≫= f) w =
  (trace h m w ++
   match run h m w with
   | (Ok a, w') => trace h (f a) w'
   | (Raise _, _) => []
   end)%list.
Proof.
  revert w. induction m as [a|e|X o k IH]; intros w; cbn; try done.
  f_equal. destruct (h X o w) as [[x|e] w']; [apply IH | done].
Qed.

Lemma run_await {W X} (h : handler W) (o : op X) (w : W) :
  run h (await o) w = h X o w.
Proof. cbn. by destruct (h X o w) as [[x|e] w']. Qed.

Lemma str_or_empty (x : option string) : str_or x "" = default "" x.
Proof.
  destruct x as [s|]; cbn; [|done].
  destruct (String.eqb_spec s ""); by subst.
Qed.

Lemma str_or_ne (s d : string) : s ≠ "" -> str_or (Some s) d = s.
Proof. intros Hs. cbn. by destruct (String.eqb_spec s ""). Qed.

(** ** The normalizer *)

(** C5: normalization is a total function of the raw record. Identifier and
    name are the record's, or the empty string when absent; size, timestamps
    and web URL are passed through, so an absent one stays [None] (a missing
    size is [None], not [Some 0]); the MIME type is read from the [file]
    marker and is [None] without one; [is_folder] says whether the [folder]
    marker is present; the download URL is the entry of [additional_data]
    under ["@microsoft.graph.downloadUrl"], [None] when there is none. *)
Theorem to_drive_item_info_degrades_to_unknown (item : DriveItem) :
  let info := _to_drive_item_info item in
  id info = default "" (item_id item)
  ∧ name info = default "" (item_name item)
  ∧ size info = item_size item
  ∧ (item_size item = None -> size info = None ∧ size info ≠ Some 0)
  ∧ mime_type info = file item ≫= file_mime_type
  ∧ (file item = None -> mime_type info = None)
  ∧ (is_folder info = true <-> is_Some (folder item))
  ∧ created_at info = created_date_time item
  ∧ modified_at info = last_modified_date_time item
  ∧ web_url info = item_web_url item
  ∧ download_url info = additional_data item !! "@microsoft.graph.downloadUrl".
Proof.
  cbn. rewrite !str_or_empty.
  split; [done|]. split; [done|]. split; [done|].
  split; [intros Hs; rewrite Hs; by split|].
  split; [by destruct (file item)|].
  split; [by intros ->|].
  split; [|done].
  destruct (folder item); by split.
Qed.

(** C8: [is_file] is the negation of [is_folder], on every value of the
    domain model and so on every normalized one, where it holds exactly when
    the raw record has no [folder] marker. *)
Theorem is_file_complements_is_folder (info : DriveItemInfo) (item : DriveItem) :
  is_file info = negb (is_folder info)
  ∧ (is_file info = true <-> is_folder info = false)
  ∧ is_file (_to_drive_item_info item)
    = negb (is_folder (_to_drive_item_info item))
  ∧ (is_file (_to_drive_item_info item) = true <-> folder item = None).
Proof.
  unfold is_file.
  split; [done|]. split; [by destruct (is_folder info)|]. split; [done|].
  cbn. by destruct (folder item).
Qed.

(** ** Construction *)

(** C9: the constructor raises [ValueError] when given neither a credential
    nor a transport client, whatever the scopes; it is a value, not a
    program, so nothing is requested from a collaborator before. With a
    transport client it keeps that client; with a credential alone it builds
    the client from it, with the given scopes or the default ones. *)
Theorem OneDriveClient_init_needs_credential_or_client
    (scopes : option (list string)) (c : Credential) (g : GraphServiceClient)
    (credential : option Credential) :
  OneDriveClient_init None scopes None
  = Raise (ValueError "Either 'credential' or 'graph_client' must be provided.")
  ∧ OneDriveClient_init credential scopes (Some g) = Ok {| _client := g |}
  ∧ OneDriveClient_init (Some c) scopes None
    = Ok {| _client := {| credentials := c;
                          scopes := list_or scopes _DEFAULT_SCOPES |} |}.
Proof. done. Qed.

(** ** Listing by path *)

Section ListByPath.
Context {W : Type} (h : handler W) (self : OneDriveClient).
Context (drive_id path : string).

Lemma list_items_by_path_unfold (w : W) :
  run h (list_items_by_path self drive_id path) w =
  match h _ (resolve_request self drive_id path) w with
  | (Ok (Some f), w') =>
      run h (list_items self drive_id (str_or (item_id f) "root")) w'
  | (Ok None, w') =>
      (Raise (FileNotFoundError ("Folder not found at path: " ++ path)), w')
  | (Raise e, w') => (Raise e, w')
  end.
Proof.
  unfold list_items_by_path, resolve_request. cbn.
  by destruct (h _ _ w) as [[[f|]|e] w'].
Qed.

Lemma list_items_by_path_trace (w : W) :
  trace h (list_items_by_path self drive_id path) w =
  an_op (resolve_request self drive_id path) ::
  match h _ (resolve_request self drive_id path) w with
  | (Ok (Some f), w') =>
      trace h (list_items self drive_id (str_or (item_id f) "root")) w'
  | _ => []
  end.
Proof.
  unfold list_items_by_path, resolve_request. cbn.
  by destruct (h _ _ w) as [[[f|]|e] w'].
Qed.

(** C2: when the resolution of [path] returns an item with identifier
    [fid], listing by path returns what [list_items] returns for [fid] in
    the state the resolution leaves, and requests exactly the resolution
    followed by the requests of that listing. *)
Theorem list_items_by_path_is_resolve_then_list
    (w w' : W) (f : DriveItem) (fid : string) :
  h _ (resolve_request self drive_id path) w = (Ok (Some f), w') ->
  item_id f = Some fid ->
  fid ≠ "" ->
  run h (list_items_by_path self drive_id path) w
  = run h (list_items self drive_id fid) w'
  ∧ trace h (list_items_by_path self drive_id path) w
    = an_op (items_get (_client self) drive_id ("root:/" ++ path ++ ":"))
      :: trace h (list_items self drive_id fid) w'.
Proof.
  intros Hget Hid Hne.
  rewrite list_items_by_path_unfold, list_items_by_path_trace, Hget, Hid.
  by rewrite (str_or_ne _ _ Hne).
Qed.

(** C3: when the resolution of [path] returns nothing, listing by path
    raises [FileNotFoundError] with the message ["Folder not found at
    path: "] followed by [path], and the only request made is the fetch of
    the item addressed ["root:/" ++ path ++ ":"]. *)
Theorem list_items_by_path_not_found (w w' : W) :
  h _ (items_get (_client self) drive_id ("root:/" ++ path ++ ":")) w
  = (Ok None, w') ->
  run h (list_items_by_path self drive_id path) w
  = (Raise (FileNotFoundError ("Folder not found at path: " ++ path)), w')
  ∧ trace h (list_items_by_path self drive_id path) w
    = [an_op (items_get (_client self) drive_id ("root:/" ++ path ++ ":"))].
Proof.
  intros Hget.
  rewrite list_items_by_path_unfold, list_items_by_path_trace.
  unfold resolve_request. by rewrite Hget.
Qed.

(** C7: when the resolution of [path] returns an item whose identifier is
    absent or empty, listing by path returns what [list_items] returns for
    ["root"]: the children of the drive root, and no error. *)
Theorem list_items_by_path_falls_back_to_root (w w' : W) (f : DriveItem) :
  h _ (resolve_request self drive_id path) w = (Ok (Some f), w') ->
  item_id f = None ∨ item_id f = Some "" ->
  run h (list_items_by_path self drive_id path) w
  = run h (list_items self drive_id "root") w'
  ∧ trace h (list_items_by_path self drive_id path) w
    = an_op (items_get (_client self) drive_id ("root:/" ++ path ++ ":"))
      :: trace h (list_items self drive_id "root") w'.
Proof.
  intros Hget Hid.
  rewrite list_items_by_path_unfold, list_items_by_path_trace, Hget.
  by destruct Hid as [-> | ->].
Qed.
End ListByPath.

Lemma list_items_by_path_is_resolve_then_list_witness :
  run (graph_service Fail)
    (list_items_by_path sample_client "D1" "Docs/2024") sample_world
  = run (graph_service Fail) (list_items sample_client "D1" "F2") sample_world
  ∧ trace (graph_service Fail)
      (list_items_by_path sample_client "D1" "Docs/2024") sample_world
    = an_op (items_get (_client sample_client) "D1" "root:/Docs/2024:")
      :: trace (graph_service Fail) (list_items sample_client "D1" "F2")
           sample_world.
Proof.
  apply (list_items_by_path_is_resolve_then_list (graph_service Fail)
           sample_client "D1" "Docs/2024" sample_world sample_world
           (folder_item "F2" "2024") "F2").
  - vm_compute. reflexivity.
  - reflexivity.
  - discriminate.
Defined.

Lemma list_items_by_path_not_found_witness :
  run (graph_service Fail)
    (list_items_by_path sample_client "D1" "Docs/2025") sample_world
  = (Raise (FileNotFoundError "Folder not found at path: Docs/2025"),
     sample_world)
  ∧ trace (graph_service Fail)
      (list_items_by_path sample_client "D1" "Docs/2025") sample_world
    = [an_op (items_get (_client sample_client) "D1" "root:/Docs/2025:")].
Proof.
  apply (list_items_by_path_not_found (graph_service Fail) sample_client
           "D1" "Docs/2025" sample_world sample_world).
  vm_compute. reflexivity.
Defined.

Lemma list_items_by_path_falls_back_to_root_witness :
  run (graph_service Fail)
    (list_items_by_path sample_client "D1" "ghost") sample_world
  = run (graph_service Fail) (list_items sample_client "D1" "root")
      sample_world
  ∧ trace (graph_service Fail)
      (list_items_by_path sample_client "D1" "ghost") sample_world
    = an_op (items_get (_client sample_client) "D1" "root:/ghost:")
      :: trace (graph_service Fail) (list_items sample_client "D1" "root")
           sample_world.
Proof.
  apply (list_items_by_path_falls_back_to_root (graph_service Fail)
           sample_client "D1" "ghost" sample_world sample_world ghost_item).
  - vm_compute. reflexivity.
  - left. reflexivity.
Defined.

(** Listing [ghost] by path yields the three entries of the drive root. *)
Example list_items_by_path_ghost_lists_root :
  match (run (graph_service Fail)
           (list_items_by_path sample_client "D1" "ghost") sample_world).1 with
  | Ok l => Some (id <$> l)
  | Raise _ => None
  end = Some ["F1"; "A"; ""].
Proof. vm_compute. reflexivity. Qed.

(** ** Resolving a site's default drive *)

Lemma get_site_default_drive_id_unfold {W} (h : handler W)
    (self : OneDriveClient) (site : string) (w : W) :
  run h (get_site_default_drive_id self site) w =
  match h _ (sites_drive_get (_client self) site) w with
  | (Ok (Some d), w') =>
      match drive_id d with
      | Some i => (Ok i, w')
      | None =>
          (Raise (FileNotFoundError ("Default drive not found for site " ++ site)),
           w')
      end
  | (Ok None, w') =>
      (Raise (FileNotFoundError ("Default drive not found for site " ++ site)),
       w')
  | (Raise e, w') => (Raise e, w')
  end.
Proof.
  unfold get_site_default_drive_id. cbn.
  destruct (h _ _ w) as [[[d|]|e] w']; try done.
  by destruct (drive_id d).
Qed.

Lemma get_site_drive_id_unfold {W} (h : handler W) (self : OneDriveClient)
    (hostname site_path : string) (w : W) :
  run h (get_site_drive_id self hostname site_path) w =
  match h _ (sites_get (_client self) (hostname ++ ":" ++ site_path)) w with
  | (Ok (Some s), w1) =>
      match h _ (sites_drive_get (_client self) (str_or (site_id s) "")) w1 with
      | (Ok (Some d), w2) => (Ok (str_or (drive_id d) ""), w2)
      | (Ok None, w2) =>
          (Raise (FileNotFoundError
                    ("Default drive not found for site " ++ hostname ++ ":"
                       ++ site_path)), w2)
      | (Raise e, w2) => (Raise e, w2)
      end
  | (Ok None, w1) =>
      (Raise (FileNotFoundError
                ("Site not found: " ++ hostname ++ ":" ++ site_path)), w1)
  | (Raise e, w1) => (Raise e, w1)
  end.
Proof.
  unfold get_site_drive_id. cbn.
  destruct (h _ _ w) as [[[s|]|e] w1]; try done. cbn.
  by destruct (h _ _ w1) as [[[d|]|e] w2].
Qed.

(** Whenever the drive record comes back without an identifier,
    [get_site_drive_id] returns the empty string. *)
Lemma get_site_drive_id_without_identifier {W} (h : handler W)
    (self : OneDriveClient) (hostname site_path : string) (s : Site)
    (w w1 w2 : W) :
  h _ (sites_get (_client self) (hostname ++ ":" ++ site_path)) w
  = (Ok (Some s), w1) ->
  h _ (sites_drive_get (_client self) (str_or (site_id s) "")) w1
  = (Ok (Some {| drive_id := None |}), w2) ->
  run h (get_site_drive_id self hostname site_path) w = (Ok "", w2).
Proof. intros H1 H2. by rewrite get_site_drive_id_unfold, H1, H2. Qed.

(** C4: on a site whose drive record carries no identifier,
    [get_site_drive_id] returns the empty string, where
    [get_site_default_drive_id], asked for the same site by its identifier,
    raises [FileNotFoundError]. *)
Theorem get_site_drive_id_returns_empty_identifier :
  run (graph_service Fail)
    (get_site_drive_id sample_client "contoso.sharepoint.com" "/sites/my-team")
    sample_world
  = (Ok "", sample_world)
  ∧ run (graph_service Fail) (get_site_default_drive_id sample_client "S1")
      sample_world
    = (Raise (FileNotFoundError "Default drive not found for site S1"),
       sample_world).
Proof. split; vm_compute; reflexivity. Qed.

(** ** The client factory *)

Lemma get_onedrive_client_cached {W} (h : handler W) (p : Process) (r : nat)
    (w : W) :
  cache p = Some r ->
  run h (get_onedrive_client p) w = (Ok (r, p), w)
  ∧ trace h (get_onedrive_client p) w = [].
Proof. intros Hc. unfold get_onedrive_client. by rewrite Hc. Qed.

Lemma get_onedrive_client_caches {W} (h : handler W) (p p' : Process)
    (r : nat) (w w' : W) :
  run h (get_onedrive_client p) w = (Ok (r, p'), w') ->
  cache p' = Some r.
Proof.
  unfold get_onedrive_client. destruct (cache p) as [r0|] eqn:Hc; cbn.
  - intros [= <- <- _]. done.
  - destruct (h _ _ w) as [[c|e] w1]; cbn; [|done]. by intros [= <- <- _].
Qed.

Lemma repeat_get_onedrive_client_cached {W} (h : handler W) (p : Process)
    (r : nat) (n : nat) (w : W) :
  cache p = Some r ->
  run h (repeat_get_onedrive_client n p) w = (Ok (replicate n r, p), w)
  ∧ trace h (repeat_get_onedrive_client n p) w = [].
Proof.
  intros Hc. induction n as [|n [IHr IHt]]; [done|].
  destruct (get_onedrive_client_cached h p r w Hc) as [Hr Ht].
  cbn [repeat_get_onedrive_client]. split.
  - rewrite run_bind, Hr. cbn [fst snd]. by rewrite run_bind, IHr.
  - rewrite trace_bind, Ht, Hr. cbn [fst snd app].
    by rewrite trace_bind, IHt, IHr.
Qed.

(** C10: once a call of the factory has returned an instance, every later
    call, in whatever state of the collaborators, returns that same instance
    without requesting anything and without changing the process: nothing is
    constructed again and the slot is never emptied. The first call itself
    constructs one instance when the slot is empty. *)
Theorem get_onedrive_client_returns_the_same_instance {W} (h : handler W)
    (p p' : Process) (r : nat) (w w' : W) :
  run h (get_onedrive_client p) w = (Ok (r, p'), w') ->
  (cache p = None ->
   r = List.length (instances p)
   ∧ List.length (instances p') = S (List.length (instances p))
   ∧ is_Some (instances p' !! r))
  ∧ forall (n : nat) (w2 : W),
      run h (repeat_get_onedrive_client n p') w2 = (Ok (replicate n r, p'), w2)
      ∧ trace h (repeat_get_onedrive_client n p') w2 = [].
Proof.
  intros Hrun. split.
  - intros Hc. revert Hrun. unfold get_onedrive_client. rewrite Hc. cbn.
    destruct (h _ _ w) as [[c|e] w1]; cbn; [|done].
    intros [= <- <- _]. cbn. split; [done|]. split.
    + rewrite length_app. cbn. lia.
    + rewrite lookup_app_r by done. rewrite Nat.sub_diag. by eexists.
  - intros n w2. apply repeat_get_onedrive_client_cached.
    by eapply get_onedrive_client_caches.
Qed.

Lemma get_onedrive_client_returns_the_same_instance_witness :
  (cache fresh_process = None ->
   0%nat = List.length (instances fresh_process)
   ∧ List.length (instances process_after_first_call) = 1%nat
   ∧ is_Some (instances process_after_first_call !! 0%nat))
  ∧ forall (n : nat) (w2 : World),
      run (graph_service Fail)
        (repeat_get_onedrive_client n process_after_first_call) w2
      = (Ok (replicate n 0%nat, process_after_first_call), w2)
      ∧ trace (graph_service Fail)
          (repeat_get_onedrive_client n process_after_first_call) w2 = [].
Proof.
  apply (get_onedrive_client_returns_the_same_instance (graph_service Fail)
           fresh_process process_after_first_call 0%nat sample_world
           (with_nodes sample_world (nodes sample_world) 1)).
  vm_compute. reflexivity.
Defined.

(** A call that raises leaves the slot empty: the next call constructs. *)
Lemma get_onedrive_client_raise_leaves_slot_empty {W} (h : handler W)
    (p : Process) (e : exn) (w w' : W) :
  cache p = None ->
  h _ DefaultAzureCredential_new w = (Raise e, w') ->
  run h (get_onedrive_client p) w = (Raise e, w').
Proof.
  intros Hc He. unfold get_onedrive_client. rewrite Hc. cbn. by rewrite He.
Qed.

(** ** Download *)

(** C6: [download_file] asks whether the destination is a directory. If it
    is, it fetches the item and the target is the destination joined with the
    item's name; otherwise the target is the destination itself. It then
    fetches the content: when there is none it raises [FileNotFoundError]
    naming the item, before anything is created or written; when there is
    some it creates the target's parent with [parents] and [exist_ok], writes
    the content to the target, logs, and returns the target. *)
Theorem download_file_writes_to_resolved_destination {W} (h : handler W)
    (self : OneDriveClient) (drive_id item_id : string)
    (destination : string + Path) (d : bool) (it : DriveItem)
    (content : option bytes) (n : Z) (w w1 w2 w3 w4 w5 w6 : W) :
  let dest := Path_new destination in
  let target :=
    if d then truediv dest (name (_to_drive_item_info it)) else dest in
  let fetch := items_get (_client self) drive_id item_id in
  let note :=
    logger_info "Downloaded %s to %s" [log_str item_id; log_path target] in
  h _ (is_dir dest) w = (Ok d, w1) ->
  (if d then h _ fetch w1 = (Ok (Some it), w2) else w2 = w1) ->
  h _ (items_content_get (_client self) drive_id item_id) w2
  = (Ok content, w3) ->
  (forall c : bytes, content = Some c ->
     h _ (mkdir (parent target) true true) w3 = (Ok (), w4)
     ∧ h _ (write_bytes target c) w4 = (Ok n, w5)
     ∧ h _ note w5 = (Ok (), w6)) ->
  run h (download_file self drive_id item_id destination) w
  = match content with
    | Some _ => (Ok target, w6)
    | None =>
        (Raise (FileNotFoundError ("No content returned for item " ++ item_id)),
         w3)
    end
  ∧ trace h (download_file self drive_id item_id destination) w
    = (an_op (is_dir dest)
       :: (if d then [an_op fetch] else [])
       ++ an_op (items_content_get (_client self) drive_id item_id)
       :: match content with
          | Some c => [an_op (mkdir (parent target) true true);
                       an_op (write_bytes target c); an_op note]
          | None => []
          end)%list.
Proof.
  intros dest target fetch note Hdir Hmeta Hcontent Hwrite.
  unfold download_file. fold dest. cbn. rewrite Hdir.
  destruct d; cbn.
  - unfold fetch in Hmeta. rewrite Hmeta. cbn. rewrite Hcontent.
    destruct content as [c|]; [|done].
    destruct (Hwrite c eq_refl) as (Hm & Hw & Hl).
    subst target note. cbn in Hm, Hw, Hl |- *.
    rewrite Hm. cbn. rewrite Hw. cbn. by rewrite Hl.
  - subst w2. rewrite Hcontent.
    destruct content as [c|]; [|done].
    destruct (Hwrite c eq_refl) as (Hm & Hw & Hl).
    subst target note. cbn in Hm, Hw, Hl |- *.
    rewrite Hm. cbn. rewrite Hw. cbn. by rewrite Hl.
Qed.

Lemma download_file_writes_to_resolved_destination_witness :
  run (graph_service Fail)
    (download_file sample_client "D1" "X" (inl "/tmp/out/")) sample_world
  = (Ok report_path, world_after_download)
  ∧ trace (graph_service Fail)
      (download_file sample_client "D1" "X" (inl "/tmp/out/")) sample_world
    = [an_op (is_dir {| anchored := true; parts := ["tmp"; "out"] |});
       an_op (items_get (_client sample_client) "D1" "X");
       an_op (items_content_get (_client sample_client) "D1" "X");
       an_op (mkdir {| anchored := true; parts := ["tmp"; "out"] |} true true);
       an_op (write_bytes report_path (b "%PDF"));
       an_op (logger_info "Downloaded %s to %s"
                [log_str "X"; log_path report_path])].
Proof.
  apply (download_file_writes_to_resolved_destination (graph_service Fail)
           sample_client "D1" "X" (inl "/tmp/out/") true
           (file_item "X" "report.pdf" (b "%PDF")) (Some (b "%PDF")) 4
           sample_world sample_world sample_world sample_world sample_world
           world_after_write world_after_download).
  - vm_compute. reflexivity.
  - vm_compute. reflexivity.
  - vm_compute. reflexivity.
  - intros c [= <-]. repeat split; vm_compute; reflexivity.
Defined.

(** A destination that is no directory is the target as it stands, and the
    reference disk gets the missing directories above it. *)
Example download_file_creates_missing_directories :
  let r := run (graph_service Fail)
             (download_file sample_client "D1" "X" (inl "/tmp/new/deep/r.pdf"))
             sample_world in
  r.1 = Ok {| anchored := true; parts := ["tmp"; "new"; "deep"; "r.pdf"] |}
  ∧ fs sample_world !! (true, ["tmp"; "new"]) = None
  ∧ fs r.2 !! (true, ["tmp"; "new"]) = Some Dir
  ∧ fs r.2 !! (true, ["tmp"; "new"; "deep"]) = Some Dir
  ∧ fs r.2 !! (true, ["tmp"; "new"; "deep"; "r.pdf"]) = Some (Reg (b "%PDF")).
Proof. vm_compute. repeat split; reflexivity. Qed.

(** An item without content: not-found, and the disk is as it was. *)
Example download_file_without_content :
  run (graph_service Fail)
    (download_file sample_client "D1" "F1" (inl "/tmp/new/deep/r.pdf"))
    sample_world
  = (Raise (FileNotFoundError "No content returned for item F1"), sample_world).
Proof. vm_compute. reflexivity. Qed.

(** ** Uploads and folder creation *)

(** C1, as the code has it: an upload is one content PUT at the path address
    and nothing else; its outcome is the transport's. An item returned is
    normalized and returned, no item is a [RuntimeError], an exception of
    the transport goes through. The request has no place for a conflict
    policy and none is sent, so what becomes of an existing item of that name
    is the service's decision. [create_folder] is one POST whose body asks
    for ["rename"] under ["@microsoft.graph.conflictBehavior"]. *)
Theorem upload_outcome_is_decided_by_the_transport {W} (h : handler W)
    (self : OneDriveClient)
    (drive_id parent_folder_id filename remote_path folder_name : string)
    (content : bytes) (w : W) :
  let put :=
    items_content_put (_client self) drive_id
      (parent_folder_id ++ ":/" ++ filename ++ ":") content in
  let put_by_path :=
    items_content_put (_client self) drive_id
      ("root:/" ++ remote_path ++ ":") content in
  let body :=
    DriveItem_new folder_name Folder_new
      {[ "@microsoft.graph.conflictBehavior" := "rename" ]} in
  let post :=
    items_children_post (_client self) drive_id parent_folder_id body in
  run h (upload_file self drive_id parent_folder_id filename content) w
  = match h _ put w with
    | (Ok (Some r), w') => (Ok (_to_drive_item_info r), w')
    | (Ok None, w') =>
        (Raise (RuntimeError ("Upload returned no metadata for " ++ filename)),
         w')
    | (Raise e, w') => (Raise e, w')
    end
  ∧ trace h (upload_file self drive_id parent_folder_id filename content) w
    = [an_op put]
  ∧ run h (upload_file_by_path self drive_id remote_path content) w
    = match h _ put_by_path w with
      | (Ok (Some r), w') => (Ok (_to_drive_item_info r), w')
      | (Ok None, w') =>
          (Raise (RuntimeError
                    ("Upload returned no metadata for " ++ remote_path)), w')
      | (Raise e, w') => (Raise e, w')
      end
  ∧ trace h (upload_file_by_path self drive_id remote_path content) w
    = [an_op put_by_path]
  ∧ run h (create_folder self drive_id parent_folder_id folder_name) w
    = match h _ post w with
      | (Ok (Some r), w') => (Ok (_to_drive_item_info r), w')
      | (Ok None, w') =>
          (Raise (RuntimeError
                    ("Folder creation returned no metadata for "
                       ++ folder_name)), w')
      | (Raise e, w') => (Raise e, w')
      end
  ∧ trace h (create_folder self drive_id parent_folder_id folder_name) w
    = [an_op post]
  ∧ additional_data body !! "@microsoft.graph.conflictBehavior" = Some "rename"
  ∧ item_name body = Some folder_name
  ∧ is_Some (folder body).
Proof.
  intros put put_by_path body post.
  unfold upload_file, upload_file_by_path, create_folder.
  fold put put_by_path body post. cbn -[put put_by_path body post].
  destruct (h _ put w) as [[[r1|]|e1] w1];
    destruct (h _ put_by_path w) as [[[r2|]|e2] w2];
    destruct (h _ post w) as [[[r3|]|e3] w3];
    repeat split; try done.
Qed.

(** C1, as stated, fails on the reference service. [a.txt] is under the root
    of [D1] with content ["old"]. Uploading ["new"] there by parent and name
    against a service that replaces returns the metadata of the existing
    item, whose content is now ["new"], and adds no item: a silent overwrite.
    Against a service that rejects, the same call, and the one by path,
    raise the service's conflict error. *)
Lemma upload_file_overwrites_or_is_rejected :
  let call := upload_file sample_client "D1" "root" "a.txt" (b "new") in
  let r := run (graph_service Replace) call sample_world in
  n_data <$> child (nodes sample_world) "D1" "root" "a.txt" = Some (b "old")
  ∧ r.1 = Ok (_to_drive_item_info (file_item "A" "a.txt" (b "new")))
  ∧ n_data <$> child (nodes r.2) "D1" "root" "a.txt" = Some (b "new")
  ∧ List.length (nodes r.2) = List.length (nodes sample_world)
  ∧ (run (graph_service Fail) call sample_world).1
    = Raise (ODataError "nameAlreadyExists")
  ∧ (run (graph_service Fail)
       (upload_file_by_path sample_client "D1" "a.txt" (b "new"))
       sample_world).1
    = Raise (ODataError "nameAlreadyExists").
Proof. vm_compute. repeat split; reflexivity. Qed.

(** Only a service that renames on its own gives an upload a new name. *)
Example upload_file_renamed_by_the_service :
  name <$> match (run (graph_service Rename)
                    (upload_file sample_client "D1" "root" "a.txt" (b "new"))
                    sample_world).1 with
           | Ok info => Some info
           | Raise _ => None
           end = Some "a 1.txt".
Proof. vm_compute. reflexivity. Qed.

(** [create_folder] on an existing name: the request asks for a rename, and
    the reference service, which rejects when not asked, makes a new folder
    under a new name and leaves the existing one. *)
Example create_folder_is_renamed :
  let r := run (graph_service Fail)
             (create_folder sample_client "D1" "root" "Docs") sample_world in
  match r.1 with
  | Ok info => Some (id info, name info, is_folder info)
  | Raise _ => None
  end = Some ("item-0", "Docs 1", true)
  ∧ n_item <$> child (nodes r.2) "D1" "root" "Docs"
    = Some (folder_item "F1" "Docs").
Proof. vm_compute. repeat split; reflexivity. Qed.

(** * Further properties of the facade *)

(** ** Discovery *)

(** X1: whenever the transport answers the request for the current user,
    [get_user_display_name] returns and does not raise: the display name
    when the user record has one (an empty one included), ["User"] when
    there is no record or no display name. *)
Theorem get_user_display_name_defaults_to_User {W} (h : handler W)
    (self : OneDriveClient) (u : option User) (w w' : W) :
  h _ (me_get (_client self)) w = (Ok u, w') ->
  run h (get_user_display_name self) w
  = (Ok (default "User" (u ≫= user_display_name)), w').
Proof.
  intros Hu. unfold get_user_display_name. cbn. rewrite Hu.
  destruct u as [[[n|]]|]; done.
Qed.

Lemma get_user_display_name_defaults_to_User_witness :
  run (graph_service Fail) (get_user_display_name sample_client) sample_world
  = (Ok "User", sample_world).
Proof.
  apply (get_user_display_name_defaults_to_User (graph_service Fail)
           sample_client None sample_world sample_world).
  vm_compute. reflexivity.
Defined.

Lemma get_my_drive_id_unfold {W} (h : handler W) (self : OneDriveClient)
    (w : W) :
  run h (get_my_drive_id self) w =
  match h _ (me_drive_get (_client self)) w with
  | (Ok (Some d), w') =>
      match drive_id d with
      | Some i => (Ok i, w')
      | None =>
          (Raise (FileNotFoundError
                    "Could not resolve the current user's OneDrive drive ID."),
           w')
      end
  | (Ok None, w') =>
      (Raise (FileNotFoundError
                "Could not resolve the current user's OneDrive drive ID."), w')
  | (Raise e, w') => (Raise e, w')
  end.
Proof.
  unfold get_my_drive_id. cbn.
  destruct (h _ _ w) as [[[d|]|e] w']; try done.
  by destruct (drive_id d).
Qed.

(** X2: [get_my_drive_id] and [get_site_default_drive_id] return an
    identifier exactly when the transport answered a drive record carrying
    that identifier: they never return a value for a missing record or a
    record without identifier, and never one the transport did not give. *)
Theorem drive_id_lookups_return_what_the_transport_gave {W} (h : handler W)
    (self : OneDriveClient) (site i : string) (w w' : W) :
  (run h (get_my_drive_id self) w = (Ok i, w')
   <-> h _ (me_drive_get (_client self)) w
       = (Ok (Some {| drive_id := Some i |}), w'))
  ∧ (run h (get_site_default_drive_id self site) w = (Ok i, w')
     <-> h _ (sites_drive_get (_client self) site) w
         = (Ok (Some {| drive_id := Some i |}), w')).
Proof.
  rewrite get_my_drive_id_unfold, get_site_default_drive_id_unfold.
  split.
  - destruct (h _ (me_drive_get _) w) as [[[[[j|]]|]|e] w1];
      split; intros [=]; by subst.
  - destruct (h _ (sites_drive_get _ _) w) as [[[[[j|]]|]|e] w1];
      split; intros [=]; by subst.
Qed.

(** X3: whenever the transport answers the request for the followed sites,
    [list_followed_sites] returns one [SiteInfo] per site, in the order
    given, and the empty list when the response or its [value] is missing.
    The display name of an entry is the site's display name when that is
    present and not empty, and the entry's name otherwise. *)
Theorem list_followed_sites_keeps_order_and_falls_back_to_name {W}
    (h : handler W) (self : OneDriveClient)
    (r : option SiteCollectionResponse) (w w' : W) :
  h _ (me_followed_sites_get (_client self)) w = (Ok r, w') ->
  let v := default [] (r ≫= sites_value) in
  exists l : list SiteInfo,
    run h (list_followed_sites self) w = (Ok l, w')
    ∧ List.length l = List.length v
    ∧ (forall (k : nat) (s : Site),
         v !! k = Some s ->
         exists info : SiteInfo,
           l !! k = Some info
           ∧ site_info_id info = default "" (site_id s)
           ∧ site_info_name info = default "" (site_name s)
           ∧ site_info_web_url info = site_web_url s
           ∧ (forall d : string,
                site_display_name s = Some d -> d ≠ "" ->
                display_name info = d)
           ∧ (default "" (site_display_name s) = "" ->
              display_name info = site_info_name info)).
Proof.
  intros Hr v. exists (to_site_info <$> v). split; [|split].
  - unfold list_followed_sites. cbn. rewrite Hr. unfold v.
    by destruct r as [[[l|]]|].
  - by rewrite length_fmap.
  - intros k s Hk. exists (to_site_info s).
    rewrite list_lookup_fmap, Hk. cbn. rewrite !str_or_empty.
    repeat split; try done.
    + intros d -> Hd. by rewrite (str_or_ne _ _ Hd).
    + destruct (site_display_name s) as [d|]; cbn; [|done].
      intros ->. done.
Qed.

Lemma list_followed_sites_keeps_order_and_falls_back_to_name_witness :
  exists l : list SiteInfo,
    run (graph_service Fail) (list_followed_sites sample_client) sites_world
    = (Ok l, sites_world)
    ∧ display_name <$> l = ["My Team"; "archive"].
Proof.
  destruct (list_followed_sites_keeps_order_and_falls_back_to_name
              (graph_service Fail) sample_client
              (Some {| sites_value := Some followed_sites |})
              sites_world sites_world eq_refl) as (l & Hrun & _ & _).
  exists l. split; [exact Hrun|].
  revert Hrun. vm_compute. intros [= <-]. reflexivity.
Defined.

(** ** Reading items *)

Lemma list_items_unfold {W} (h : handler W) (self : OneDriveClient)
    (drive_id folder_id : string) (w : W) :
  run h (list_items self drive_id folder_id) w =
  match h _ (items_children_get (_client self) drive_id folder_id) w with
  | (Ok r, w') => (Ok (_to_drive_item_info <$> default [] (r ≫= value)), w')
  | (Raise e, w') => (Raise e, w')
  end
  ∧ trace h (list_items self drive_id folder_id) w
    = [an_op (items_children_get (_client self) drive_id folder_id)].
Proof.
  unfold list_items. cbn.
  by destruct (h _ _ w) as [[[[[l|]]|]|e] w'].
Qed.

Lemma get_item_unfold {W} (h : handler W) (self : OneDriveClient)
    (drive_id item_id : string) (w : W) :
  run h (get_item self drive_id item_id) w =
  match h _ (items_get (_client self) drive_id item_id) w with
  | (Ok (Some i), w') => (Ok (_to_drive_item_info i), w')
  | (Ok None, w') =>
      (Raise (FileNotFoundError ("Item not found: " ++ item_id)), w')
  | (Raise e, w') => (Raise e, w')
  end
  ∧ trace h (get_item self drive_id item_id) w
    = [an_op (items_get (_client self) drive_id item_id)].
Proof.
  unfold get_item. cbn.
  by destruct (h _ _ w) as [[[i|]|e] w'].
Qed.

(** X4: whenever the transport answers the children request, [list_items]
    returns and does not raise: one normalized entry per child, in the
    order given, and the empty list when the response or its [value] is
    missing. It makes that one request and no other. *)
Theorem list_items_keeps_order_and_length {W} (h : handler W)
    (self : OneDriveClient) (drive_id folder_id : string)
    (r : option DriveItemCollectionResponse) (w w' : W) :
  h _ (items_children_get (_client self) drive_id folder_id) w = (Ok r, w') ->
  let v := default [] (r ≫= value) in
  exists l : list DriveItemInfo,
    run h (list_items self drive_id folder_id) w = (Ok l, w')
    ∧ List.length l = List.length v
    ∧ (forall k : nat, l !! k = _to_drive_item_info <$> v !! k)
    ∧ trace h (list_items self drive_id folder_id) w
      = [an_op (items_children_get (_client self) drive_id folder_id)].
Proof.
  intros Hr v. exists (_to_drive_item_info <$> v).
  destruct (list_items_unfold h self drive_id folder_id w) as [Hrun Htr].
  rewrite Hrun, Hr, Htr. repeat split.
  - by rewrite length_fmap.
  - intros k. by rewrite list_lookup_fmap.
Qed.

Lemma list_items_keeps_order_and_length_witness :
  exists l : list DriveItemInfo,
    run (graph_service Fail) (list_items sample_client "D1" "root")
      sample_world = (Ok l, sample_world)
    ∧ name <$> l = ["Docs"; "a.txt"; "ghost"].
Proof.
  destruct (list_items_keeps_order_and_length (graph_service Fail)
              sample_client "D1" "root"
              (Some {| value := Some (children_of (nodes sample_world)
                                        "D1" "root") |})
              sample_world sample_world eq_refl) as (l & Hrun & _).
  exists l. split; [exact Hrun|].
  revert Hrun. vm_compute. intros [= <-]. reflexivity.
Defined.

(** [get_item] returns the normalized item when the transport answers
    one, and raises [FileNotFoundError] whose message ends with the
    identifier asked for when the transport answers nothing; either way
    after that one request. *)
Theorem get_item_not_found_names_the_item {W} (h : handler W)
    (self : OneDriveClient) (drive_id item_id : string)
    (o : option DriveItem) (w w' : W) :
  h _ (items_get (_client self) drive_id item_id) w = (Ok o, w') ->
  run h (get_item self drive_id item_id) w
  = match o with
    | Some i => (Ok (_to_drive_item_info i), w')
    | None => (Raise (FileNotFoundError ("Item not found: " ++ item_id)), w')
    end
  ∧ trace h (get_item self drive_id item_id) w
    = [an_op (items_get (_client self) drive_id item_id)].
Proof.
  intros Ho. destruct (get_item_unfold h self drive_id item_id w) as [-> ->].
  rewrite Ho. by destruct o.
Qed.

Lemma get_item_not_found_names_the_item_witness :
  run (graph_service Fail) (get_item sample_client "D1" "missing") sample_world
  = (Raise (FileNotFoundError "Item not found: missing"), sample_world)
  ∧ trace (graph_service Fail) (get_item sample_client "D1" "missing")
      sample_world
    = [an_op (items_get (_client sample_client) "D1" "missing")].
Proof.
  apply (get_item_not_found_names_the_item (graph_service Fail) sample_client
           "D1" "missing" None sample_world sample_world).
  vm_compute. reflexivity.
Defined.

(** X5: [get_folder_info] is [get_item] followed by [list_items] on the same
    identifier. When the item fetch answers nothing it raises the not-found
    of [get_item] and the children are never requested; otherwise identifier,
    name and web URL of the result are those of the fetched item (not the
    identifier asked for) and its children are the normalized listing, read
    in the state the fetch left. *)
Theorem get_folder_info_is_get_item_then_list_items {W} (h : handler W)
    (self : OneDriveClient) (drive_id folder_id : string)
    (o : option DriveItem) (r : option DriveItemCollectionResponse)
    (w w1 w2 : W) :
  let fetch := items_get (_client self) drive_id folder_id in
  let listing := items_children_get (_client self) drive_id folder_id in
  h _ fetch w = (Ok o, w1) ->
  (is_Some o -> h _ listing w1 = (Ok r, w2)) ->
  match o with
  | None =>
      run h (get_folder_info self drive_id folder_id) w
      = (Raise (FileNotFoundError ("Item not found: " ++ folder_id)), w1)
      ∧ trace h (get_folder_info self drive_id folder_id) w = [an_op fetch]
  | Some it =>
      run h (get_folder_info self drive_id folder_id) w
      = (Ok {| folder_id := default "" (item_id it);
               folder_name := default "" (item_name it);
               children := _to_drive_item_info <$> default [] (r ≫= value);
               folder_web_url := item_web_url it |}, w2)
      ∧ trace h (get_folder_info self drive_id folder_id) w
        = [an_op fetch; an_op listing]
  end.
Proof.
  intros fetch listing Hfetch Hlist. unfold get_folder_info.
  destruct (get_item_unfold h self drive_id folder_id w) as [Hg Hgt].
  fold fetch in Hg, Hgt. rewrite Hfetch in Hg.
  rewrite run_bind, trace_bind, Hg, Hgt.
  destruct o as [it|]; [|done].
  destruct (list_items_unfold h self drive_id folder_id w1) as [Hl Hlt].
  fold listing in Hl, Hlt. rewrite (Hlist (mk_is_Some _ _ eq_refl)) in Hl.
  rewrite run_bind, trace_bind, Hl, Hlt. cbn. by rewrite !str_or_empty.
Qed.

Lemma get_folder_info_is_get_item_then_list_items_witness :
  run (graph_service Fail) (get_folder_info sample_client "D1" "F1")
    sample_world
  = (Ok {| folder_id := "F1"; folder_name := "Docs";
           children := [_to_drive_item_info (folder_item "F2" "2024")];
           folder_web_url := None |}, sample_world)
  ∧ trace (graph_service Fail) (get_folder_info sample_client "D1" "F1")
      sample_world
    = [an_op (items_get (_client sample_client) "D1" "F1");
       an_op (items_children_get (_client sample_client) "D1" "F1")].
Proof.
  apply (get_folder_info_is_get_item_then_list_items (graph_service Fail)
           sample_client "D1" "F1" (Some (folder_item "F1" "Docs"))
           (Some {| value := Some [folder_item "F2" "2024"] |})
           sample_world sample_world sample_world).
  - vm_compute. reflexivity.
  - intros _. vm_compute. reflexivity.
Defined.

(** ** Deleting *)

(** X6: [delete_item] makes the delete request and then logs. When the
    request raises, the exception reaches the caller and nothing is logged;
    the log line is written only after a delete that returned. *)
Theorem delete_item_logs_only_after_the_delete {W} (h : handler W)
    (self : OneDriveClient) (drive_id item_id : string) (w : W) :
  let del := items_delete (_client self) drive_id item_id in
  let note :=
    logger_info "Deleted item %s from drive %s"
      [log_str item_id; log_str drive_id] in
  trace h (delete_item self drive_id item_id) w
  = an_op del :: match h _ del w with
                 | (Ok _, _) => [an_op note]
                 | (Raise _, _) => []
                 end
  ∧ run h (delete_item self drive_id item_id) w
    = match h _ del w with
      | (Ok _, w') => h _ note w'
      | (Raise e, w') => (Raise e, w')
      end.
Proof.
  intros del note. unfold delete_item. fold del note.
  cbn -[del note].
  destruct (h _ del w) as [[[]|e] w']; [|done].
  by destruct (h _ note w') as [[[]|e] w''].
Qed.

(** ** What the operations request *)

(** Case analysis on whatever the goal branches on next: the answer to a
    request, or an attribute of a record that came back. *)
Ltac next_case :=
  match goal with
  | |- context [match ?t with _ => _ end] => destruct t; cbn
  end.

(** X7: the discovery and read operations only read: whatever the answers,
    every request they make is a [get], they touch neither the disk nor the
    log, and none makes more than two requests. *)
Theorem read_operations_only_get {W} (h : handler W) (self : OneDriveClient)
    (a b : string) (w : W) :
  let reads (A : Type) (m : prog A) :=
    forallb is_get (trace h m w) = true
    ∧ (List.length (trace h m w) <= 2)%nat in
  reads _ (get_user_display_name self)
  ∧ reads _ (get_my_drive_id self)
  ∧ reads _ (list_followed_sites self)
  ∧ reads _ (get_site_default_drive_id self a)
  ∧ reads _ (get_site_drive_id self a b)
  ∧ reads _ (list_items self a b)
  ∧ reads _ (list_items_by_path self a b)
  ∧ reads _ (get_item self a b)
  ∧ reads _ (get_folder_info self a b).
Proof.
  intros reads. unfold reads.
  repeat split; cbn; repeat next_case; solve [done | lia].
Qed.

(** X8: [download_file] never uploads, creates or deletes on the service,
    and the uploads, [create_folder] and [delete_item] never touch the local
    disk, whatever the collaborators answer. *)
Theorem service_and_disk_are_kept_apart {W} (h : handler W)
    (self : OneDriveClient) (d a c : string) (content : bytes)
    (destination : string + Path) (w : W) :
  forallb (fun o => negb (changes_service o))
    (trace h (download_file self d a destination) w) = true
  ∧ forallb (fun o => negb (is_disk o))
      (trace h (upload_file self d a c content) w) = true
  ∧ forallb (fun o => negb (is_disk o))
      (trace h (upload_file_by_path self d a content) w) = true
  ∧ forallb (fun o => negb (is_disk o))
      (trace h (create_folder self d a c) w) = true
  ∧ forallb (fun o => negb (is_disk o))
      (trace h (delete_item self d a) w) = true.
Proof.
  split.
  - unfold download_file. generalize (Path_new destination). intros dest.
    cbn -[truediv parent].
    repeat (match goal with
            | |- context [match ?t with _ => _ end] =>
                destruct t; cbn -[truediv parent]
            end); done.
  - repeat split; cbn; repeat next_case; done.
Qed.

(** ** Where a download lands *)

Lemma rev_app_append (a b s : string) :
  String.rev_app a b ++ s = String.rev_app a (b ++ s).
Proof. revert b. induction a as [|c a IH]; intros b; cbn; [done|apply IH]. Qed.

Lemma split_slash_no_slash (s acc : string) :
  forallb (fun c => negb (Ascii.eqb c "/"%char)) (list_ascii_of_string s) = true ->
  split_slash acc s = [String.rev_app acc s].
Proof.
  revert acc. induction s as [|c s IH]; intros acc; cbn; [done|].
  destruct (Ascii.eqb c "/"%char); cbn; [done|]. intros Hs. by rewrite IH.
Qed.

Lemma truediv_plain_name (p : Path) (n : string) :
  is_plain_name n = true ->
  truediv p n = {| anchored := anchored p; parts := parts p ++ [n] |}
  ∧ parent (truediv p n) = p.
Proof.
  unfold is_plain_name. intros [Hk Hs]%andb_prop.
  assert (Path_of_str n = {| anchored := false; parts := [n] |}) as Hn.
  { unfold Path_of_str. rewrite (split_slash_no_slash n "" Hs). cbn.
    rewrite Hk. f_equal. destruct n as [|c n]; [done|]. cbn in Hs |- *.
    by destruct (Ascii.eqb c "/"%char). }
  unfold truediv, parent. rewrite Hn. cbn. split; [done|].
  rewrite removelast_last. by destruct p.
Qed.

Lemma truediv_empty_name (p : Path) : truediv p "" = p.
Proof. unfold truediv. cbn. rewrite app_nil_r. by destruct p. Qed.

Lemma download_file_in_directory {W} (h : handler W) (self : OneDriveClient)
    (drive_id item_id : string) (destination : string + Path)
    (o : option DriveItem) (w w1 w2 : W) :
  h _ (is_dir (Path_new destination)) w = (Ok true, w1) ->
  h _ (items_get (_client self) drive_id item_id) w1 = (Ok o, w2) ->
  match o with
  | Some it =>
      run h (download_file self drive_id item_id destination) w
      = run h (download_to self drive_id item_id
                 (truediv (Path_new destination)
                    (default "" (item_name it)))) w2
      ∧ trace h (download_file self drive_id item_id destination) w
        = an_op (is_dir (Path_new destination))
          :: an_op (items_get (_client self) drive_id item_id)
          :: trace h (download_to self drive_id item_id
                        (truediv (Path_new destination)
                           (default "" (item_name it)))) w2
  | None =>
      run h (download_file self drive_id item_id destination) w
      = (Raise (FileNotFoundError ("Item not found: " ++ item_id)), w2)
      ∧ trace h (download_file self drive_id item_id destination) w
        = [an_op (is_dir (Path_new destination));
           an_op (items_get (_client self) drive_id item_id)]
  end.
Proof.
  intros Hdir Hget. unfold download_file, download_to.
  generalize dependent (Path_new destination). intros dest Hdir.
  cbn -[truediv parent]. rewrite Hdir. cbn -[truediv parent]. rewrite Hget.
  destruct o as [it|]; [|done]. cbn -[truediv parent].
  by rewrite !str_or_empty.
Qed.

(** X9: when the destination is a directory and the item fetch answers
    nothing, [download_file] raises the not-found of [get_item] at once: the
    content is not requested and nothing is created or written. *)
Theorem download_file_missing_item_stops_before_the_content {W}
    (h : handler W) (self : OneDriveClient) (drive_id item_id : string)
    (destination : string + Path) (w w1 w2 : W) :
  h _ (is_dir (Path_new destination)) w = (Ok true, w1) ->
  h _ (items_get (_client self) drive_id item_id) w1 = (Ok None, w2) ->
  run h (download_file self drive_id item_id destination) w
  = (Raise (FileNotFoundError ("Item not found: " ++ item_id)), w2)
  ∧ trace h (download_file self drive_id item_id destination) w
    = [an_op (is_dir (Path_new destination));
       an_op (items_get (_client self) drive_id item_id)].
Proof.
  intros Hdir Hget.
  exact (download_file_in_directory h self drive_id item_id destination None
           w w1 w2 Hdir Hget).
Qed.

Lemma download_file_missing_item_stops_before_the_content_witness :
  run (graph_service Fail)
    (download_file sample_client "D1" "missing" (inl "/tmp/out")) sample_world
  = (Raise (FileNotFoundError "Item not found: missing"), sample_world)
  ∧ trace (graph_service Fail)
      (download_file sample_client "D1" "missing" (inl "/tmp/out"))
      sample_world
    = [an_op (is_dir {| anchored := true; parts := ["tmp"; "out"] |});
       an_op (items_get (_client sample_client) "D1" "missing")].
Proof.
  apply (download_file_missing_item_stops_before_the_content
           (graph_service Fail) sample_client "D1" "missing" (inl "/tmp/out")
           sample_world sample_world sample_world);
    vm_compute; reflexivity.
Defined.

(** X10: when the destination is a directory and the item's name is a plain
    file name (not empty, not a dot, no slash), [download_file] proceeds on
    the destination with that one component appended, and the directory it
    will create is the destination itself. *)
Theorem download_file_plain_name_lands_in_the_directory {W} (h : handler W)
    (self : OneDriveClient) (drive_id item_id : string)
    (destination : string + Path) (it : DriveItem) (n : string)
    (w w1 w2 : W) :
  let dest := Path_new destination in
  let target := {| anchored := anchored dest; parts := parts dest ++ [n] |} in
  h _ (is_dir dest) w = (Ok true, w1) ->
  h _ (items_get (_client self) drive_id item_id) w1 = (Ok (Some it), w2) ->
  item_name it = Some n ->
  is_plain_name n = true ->
  run h (download_file self drive_id item_id destination) w
  = run h (download_to self drive_id item_id target) w2
  ∧ trace h (download_file self drive_id item_id destination) w
    = an_op (is_dir dest)
      :: an_op (items_get (_client self) drive_id item_id)
      :: trace h (download_to self drive_id item_id target) w2
  ∧ parent target = dest.
Proof.
  intros dest target Hdir Hget Hn Hplain.
  pose proof (download_file_in_directory h self drive_id item_id destination
                (Some it) w w1 w2 Hdir Hget) as [Hrun Htr].
  rewrite Hn in Hrun, Htr.
  change (default "" (Some n)) with n in Hrun, Htr.
  destruct (truediv_plain_name (Path_new destination) n Hplain) as [Ht Hp].
  rewrite Ht in Hrun, Htr, Hp. subst dest target. done.
Qed.

Lemma download_file_plain_name_lands_in_the_directory_witness :
  run (graph_service Fail)
    (download_file sample_client "D1" "X" (inl "/tmp/out")) sample_world
  = run (graph_service Fail) (download_to sample_client "D1" "X" report_path)
      sample_world
  ∧ trace (graph_service Fail)
      (download_file sample_client "D1" "X" (inl "/tmp/out")) sample_world
    = an_op (is_dir {| anchored := true; parts := ["tmp"; "out"] |})
      :: an_op (items_get (_client sample_client) "D1" "X")
      :: trace (graph_service Fail)
           (download_to sample_client "D1" "X" report_path) sample_world
  ∧ parent report_path = {| anchored := true; parts := ["tmp"; "out"] |}.
Proof.
  apply (download_file_plain_name_lands_in_the_directory (graph_service Fail)
           sample_client "D1" "X" (inl "/tmp/out")
           (file_item "X" "report.pdf" (b "%PDF")) "report.pdf"
           sample_world sample_world sample_world);
    vm_compute; reflexivity.
Defined.



(** On the reference disk that download creates [/srv] and writes there. *)
Example download_file_absolute_name_on_the_reference_disk :
  let r := run (graph_service Fail)
             (download_file sample_client "D1" "E" (inl "/tmp/out"))
             odd_names_world in
  r.1 = Ok {| anchored := true; parts := ["srv"; "elsewhere.txt"] |}
  ∧ fs r.2 !! (true, ["srv"; "elsewhere.txt"]) = Some (Reg (b "x"))
  ∧ fs r.2 !! (true, ["tmp"; "out"; "elsewhere.txt"]) = None.
Proof. vm_compute. repeat split; reflexivity. Qed.

(** X12: when the destination is a directory and the item has no name, or
    an empty one, [download_file] proceeds on the destination itself: the
    path it will write the content to is the directory. *)
Theorem download_file_nameless_item_targets_the_directory {W} (h : handler W)
    (self : OneDriveClient) (drive_id item_id : string)
    (destination : string + Path) (it : DriveItem) (w w1 w2 : W) :
  let dest := Path_new destination in
  h _ (is_dir dest) w = (Ok true, w1) ->
  h _ (items_get (_client self) drive_id item_id) w1 = (Ok (Some it), w2) ->
  item_name it = None ∨ item_name it = Some "" ->
  run h (download_file self drive_id item_id destination) w
  = run h (download_to self drive_id item_id dest) w2
  ∧ trace h (download_file self drive_id item_id destination) w
    = an_op (is_dir dest)
      :: an_op (items_get (_client self) drive_id item_id)
      :: trace h (download_to self drive_id item_id dest) w2.
Proof.
  intros dest Hdir Hget Hn.
  pose proof (download_file_in_directory h self drive_id item_id destination
                (Some it) w w1 w2 Hdir Hget) as [Hrun Htr].
  assert (default "" (item_name it) = "") as He by (by destruct Hn as [-> | ->]).
  rewrite He, truediv_empty_name in Hrun, Htr. subst dest. done.
Qed.

Lemma download_file_nameless_item_targets_the_directory_witness :
  run (graph_service Fail)
    (download_file sample_client "D1" "N" (inl "/tmp/out")) odd_names_world
  = run (graph_service Fail)
      (download_to sample_client "D1" "N" (Path_new (inl "/tmp/out")))
      odd_names_world
  ∧ trace (graph_service Fail)
      (download_file sample_client "D1" "N" (inl "/tmp/out")) odd_names_world
    = an_op (is_dir (Path_new (inl "/tmp/out")))
      :: an_op (items_get (_client sample_client) "D1" "N")
      :: trace (graph_service Fail)
           (download_to sample_client "D1" "N" (Path_new (inl "/tmp/out")))
           odd_names_world.
Proof.
  apply (download_file_nameless_item_targets_the_directory (graph_service Fail)
           sample_client "D1" "N" (inl "/tmp/out") unnamed_item
           odd_names_world odd_names_world odd_names_world).
  - vm_compute. reflexivity.
  - vm_compute. reflexivity.
  - left. reflexivity.
Defined.

(** On the reference disk the write onto the directory is refused. *)
Example download_file_nameless_item_on_the_reference_disk :
  (run (graph_service Fail)
     (download_file sample_client "D1" "N" (inl "/tmp/out")) odd_names_world).1
  = Raise (OSError "EISDIR").
Proof. vm_compute. reflexivity. Qed.

(** ** Uploading by path *)

(** [upload_file_by_path] is [upload_file] into the parent ["root"]
    with the path as file name: the two are the same program, so they send
    the same request and fail with the same message. *)
Theorem upload_file_by_path_is_upload_file_under_root (self : OneDriveClient)
    (drive_id remote_path : string) (content : bytes) :
  upload_file_by_path self drive_id remote_path content
  = upload_file self drive_id "root" remote_path content.
Proof. reflexivity. Qed.

(** ** Construction *)

(** X13: a client constructed from a credential alone always has scopes:
    the ones given when that list is not empty, the default scope when no
    list or an empty list is given; its credential is the one given. *)
Theorem OneDriveClient_init_scopes_are_never_empty (c : Credential)
    (given : option (list string)) (client : OneDriveClient) :
  OneDriveClient_init (Some c) given None = Ok client ->
  credentials (_client client) = c
  ∧ scopes (_client client) ≠ []
  ∧ (forall l : list string,
       given = Some l -> l ≠ [] -> scopes (_client client) = l)
  ∧ (given = None ∨ given = Some [] ->
     scopes (_client client)
     = ["https://graph.microsoft.com/.default"]).
Proof.
  intros [= <-]. cbn. split; [done|]. split; [|split].
  - by destruct given as [[|a l]|].
  - intros l -> Hl. by destruct l.
  - by intros [-> | ->].
Qed.

Lemma OneDriveClient_init_scopes_are_never_empty_witness :
  credentials (_client sample_client) = credential 7
  ∧ scopes (_client sample_client) ≠ []
  ∧ (forall l : list string,
       Some ([] : list string) = Some l -> l ≠ [] ->
       scopes (_client sample_client) = l)
  ∧ (Some ([] : list string) = None ∨ Some ([] : list string) = Some [] ->
     scopes (_client sample_client)
     = ["https://graph.microsoft.com/.default"]).
Proof.
  apply (OneDriveClient_init_scopes_are_never_empty (credential 7) (Some [])
           sample_client).
  reflexivity.
Defined.

(** ** The factory's failures *)

(** X14: [get_onedrive_client] raises only when the slot is empty and the
    construction of the credential raises, and then with that exception: it
    never raises the constructor's [ValueError] of its own, and never once
    an instance is cached. *)
Theorem get_onedrive_client_fails_only_with_the_credential {W}
    (h : handler W) (p : Process) (e : exn) (w w' : W) :
  run h (get_onedrive_client p) w = (Raise e, w') ->
  cache p = None
  ∧ h _ DefaultAzureCredential_new w = (Raise e, w').
Proof.
  unfold get_onedrive_client. destruct (cache p) as [r|]; cbn; [done|].
  destruct (h _ _ w) as [[c|e'] w1]; cbn; [done|]. by intros [= -> ->].
Qed.

Lemma get_onedrive_client_fails_only_with_the_credential_witness :
  cache fresh_process = None
  ∧ graph_service Fail _ DefaultAzureCredential_new sites_world
    = (Raise (ODataError "CredentialUnavailableError"), sites_world).
Proof.
  apply (get_onedrive_client_fails_only_with_the_credential
           (graph_service Fail) fresh_process
           (ODataError "CredentialUnavailableError") sites_world sites_world).
  vm_compute. reflexivity.
Defined.

(** ** Settings *)

(** X15: once [get_settings] has returned settings, every later call
    returns the same settings and leaves the slot as it is, whatever the
    environment has become: the environment is read once. A call that
    raises leaves the slot empty, so the next call reads again. *)
Theorem get_settings_reads_the_environment_once {Env : Type}
    (Settings_init : Env -> result Settings) (env : Env)
    (slot slot' : option Settings) (s : Settings) :
  get_settings Settings_init env slot = (Ok s, slot') ->
  slot' = Some s
  ∧ (forall env' : Env, get_settings Settings_init env' slot' = (Ok s, slot'))
  ∧ (forall (env' : Env) (e : exn),
       Settings_init env' = Raise e ->
       get_settings Settings_init env' None = (Raise e, None)).
Proof.
  intros Hget.
  assert (slot' = Some s) as ->.
  { revert Hget. unfold get_settings. destruct slot as [s0|].
    - by intros [= -> <-].
    - destruct (Settings_init env); [|done]. by intros [= -> <-]. }
  split; [done|]. split; [done|].
  intros env' e He. unfold get_settings. by rewrite He.
Qed.

Lemma get_settings_reads_the_environment_once_witness :
  let s := {| azure_tenant_id := "tenant-1"; azure_client_id := "client-1" |} in
  Some s = Some s
  ∧ (forall env' : gmap string string,
       get_settings sample_Settings_init env' (Some s) = (Ok s, Some s))
  ∧ (forall (env' : gmap string string) (e : exn),
       sample_Settings_init env' = Raise e ->
       get_settings sample_Settings_init env' None = (Raise e, None)).
Proof.
  apply (get_settings_reads_the_environment_once sample_Settings_init
           sample_env None).
  vm_compute. reflexivity.
Defined.

(** ** A site's drive, by host name and path *)

(** X16: whenever the site lookup answers a site and the drive lookup
    answers a drive, [get_site_drive_id] returns and does not raise. The
    drive is looked up under the site's identifier, or under the empty
    string when the site has none; the value returned is the drive's
    identifier, or the empty string when the drive has none. *)
Theorem get_site_drive_id_defaults_missing_identifiers {W} (h : handler W)
    (self : OneDriveClient) (hostname site_path : string) (s : Site)
    (d : Drive) (w w1 w2 : W) :
  h _ (sites_get (_client self) (hostname ++ ":" ++ site_path)) w
  = (Ok (Some s), w1) ->
  h _ (sites_drive_get (_client self) (default "" (site_id s))) w1
  = (Ok (Some d), w2) ->
  run h (get_site_drive_id self hostname site_path) w
  = (Ok (default "" (drive_id d)), w2)
  ∧ trace h (get_site_drive_id self hostname site_path) w
    = [an_op (sites_get (_client self) (hostname ++ ":" ++ site_path));
       an_op (sites_drive_get (_client self) (default "" (site_id s)))].
Proof.
  intros Hs Hd. rewrite <- !str_or_empty in *.
  rewrite get_site_drive_id_unfold, Hs, Hd. split; [done|].
  unfold get_site_drive_id. cbn. rewrite Hs. cbn. by rewrite Hd.
Qed.

Lemma get_site_drive_id_defaults_missing_identifiers_witness :
  run (graph_service Fail)
    (get_site_drive_id sample_client "contoso.sharepoint.com" "/sites/my-team")
    sample_world
  = (Ok "", sample_world)
  ∧ trace (graph_service Fail)
      (get_site_drive_id sample_client "contoso.sharepoint.com"
         "/sites/my-team") sample_world
    = [an_op (sites_get (_client sample_client)
                "contoso.sharepoint.com:/sites/my-team");
       an_op (sites_drive_get (_client sample_client) "S1")].
Proof.
  apply (get_site_drive_id_defaults_missing_identifiers (graph_service Fail)
           sample_client "contoso.sharepoint.com" "/sites/my-team"
           {| site_id := Some "S1"; site_name := Some "my-team";
              site_display_name := None; site_web_url := None |}
           {| drive_id := None |} sample_world sample_world sample_world);
    vm_compute; reflexivity.
Defined.
